(** * empathic-space-hub: the chat hooks, the text classifiers and the
      wellbeing tracker, embedded and verified

    Sources embedded here:
    - [lib/ai.ts]            (emotionPatterns, toxicPatterns, analyzeEmotion,
                              detectToxicity)
    - [hooks/useChat.ts]     (useChat: message listener, sendMessage,
                              deleteMessage, setTypingStatus; useChats: chat
                              listener, createChat)
    - [contexts/WellbeingContext.tsx] (WellbeingProvider: usage tick, break
                              reminder check, daily-limit effect)

    JavaScript strings are sequences of UTF-16 code units, numbers that hold
    timestamps and minute counters are integers, the realtime database is a
    tree restricted to the paths the hooks address, and asynchronous
    functions are run to completion in program order (every [await] in the
    embedded functions waits for the previous step).  A [set] reaches the
    database: network failures of the hosted store are outside the
    embedding.  What the hooks take from their environment (the clock, the
    key generator of [push], the engine's case mapping) is a parameter, the
    [Host]. *)

From Stdlib Require Import ZArith NArith QArith List Bool Ascii String Lia.
From Stdlib Require Import Sorting.Sorted Sorting.Permutation.
From Stdlib Require Import QArith.Qround.
From stdpp Require Import base option list gmap strings.

Local Open Scope Z_scope.

(* ===================================================================== *)
(** * JavaScript strings *)
(* ===================================================================== *)

Module JsString.

(** A string value: its UTF-16 code units. *)
Definition jsstring : Type := list N.

(** An ASCII literal of the source as code units. *)
Fixpoint lit (s : string) : jsstring :=
  match s with
  | EmptyString => []
  | String a s' => N_of_ascii a :: lit s'
  end.

(** WhiteSpace and LineTerminator code units, the ones [String.prototype.trim]
    strips. *)
Definition isWhiteSpace (c : N) : bool :=
  ((9 <=? c) && (c <=? 13) ||
   (c =? 32) || (c =? 160) || (c =? 5760) ||
   (8192 <=? c) && (c <=? 8202) ||
   (c =? 8232) || (c =? 8233) || (c =? 8239) || (c =? 8287) ||
   (c =? 12288) || (c =? 65279))%N.

Fixpoint trimStart (s : jsstring) : jsstring :=
  match s with
  | [] => []
  | c :: s' => if isWhiteSpace c then trimStart s' else s
  end.

Definition trimEnd (s : jsstring) : jsstring := rev (trimStart (rev s)).

(** [s.trim()] *)
Definition trim (s : jsstring) : jsstring := trimEnd (trimStart s).

(** [s.substring(0, n)] for a non-negative [n]: the first [n] code units,
    the whole string when it is shorter. *)
Definition substring0 (n : nat) (s : jsstring) : jsstring := take n s.

(** Truthiness of a string: only the empty string is falsy. *)
Definition truthy (s : jsstring) : bool :=
  match s with [] => false | _ :: _ => true end.

(** [a || b] on strings. *)
Definition or_else (a b : jsstring) : jsstring := if truthy a then a else b.

End JsString.
Import JsString.

(* ===================================================================== *)
(** * Regular expressions (the fragment the patterns of ai.ts use) *)
(* ===================================================================== *)

Module RegExp.

(** Pattern syntax: characters, character classes, the word-boundary
    assertion, sequence and alternation.  Groups only matter for
    captures, which [test] discards. *)
Inductive Pattern : Type :=
| Chr (c : N)
| Class (cs : list N)
| WordB
| Empty
| Seq (p q : Pattern)
| Alt (p q : Pattern).

Record RegExp : Type := mkRegExp { source : Pattern; ignoreCase : bool }.

(** Canonicalize (ECMAScript 22.2.5.6, no [u] flag): with [i], a code unit
    is mapped to its upper-case form.  This is exact below 128; a code unit
    at or above 128 stays at or above 128 in ECMAScript as well (its
    upper-case form is refused when it would be ASCII), and every [/i]
    pattern of ai.ts is ASCII, so comparisons against pattern characters
    come out the same. *)
Definition canonicalize (ic : bool) (c : N) : N :=
  if ic && (97 <=? c)%N && (c <=? 122)%N then (c - 32)%N else c.

(** IsWordChar: [A-Za-z0-9_]; positions outside the input are not word
    characters. *)
Definition isWordCU (c : N) : bool :=
  ((65 <=? c) && (c <=? 90) || (97 <=? c) && (c <=? 122) ||
   (48 <=? c) && (c <=? 57) || (c =? 95))%N.

Definition isWordChar (input : jsstring) (e : Z) : bool :=
  if (e <? 0) then false
  else match input !! Z.to_nat e with
       | Some c => isWordCU c
       | None => false
       end.

(** The backtracking matcher in continuation-passing style, as the
    language definition gives it: [k] is what has to match after [p]. *)
Fixpoint matcher (ic : bool) (p : Pattern) (input : jsstring) (i : nat)
  (k : nat -> bool) : bool :=
  match p with
  | Chr c =>
      match input !! i with
      | Some ch => if (canonicalize ic ch =? canonicalize ic c)%N then k (S i) else false
      | None => false
      end
  | Class cs =>
      match input !! i with
      | Some ch =>
          if existsb (fun c => (canonicalize ic ch =? canonicalize ic c)%N) cs
          then k (S i) else false
      | None => false
      end
  | WordB =>
      let a := isWordChar input (Z.of_nat i - 1) in
      let b := isWordChar input (Z.of_nat i) in
      if xorb a b then k i else false
  | Empty => k i
  | Seq p q => matcher ic p input i (fun j => matcher ic q input j k)
  | Alt p q => matcher ic p input i k || matcher ic q input i k
  end.

(** [re.test(s)] for a regular expression without the [g] and [y] flags:
    the search starts at index 0 on every call and tries every start
    position up to the end of the input. *)
Definition test (re : RegExp) (input : jsstring) : bool :=
  existsb (fun i => matcher (ignoreCase re) (source re) input i (fun _ => true))
          (seq 0 (S (length input))).

(** Pattern builders. *)
Definition chars (s : jsstring) : Pattern :=
  foldr (fun c p => Seq (Chr c) p) Empty s.

Definition word (s : string) : Pattern := chars (lit s).

Fixpoint alts (ps : list Pattern) : Pattern :=
  match ps with
  | [] => Empty
  | [p] => p
  | p :: ps' => Alt p (alts ps')
  end.

(** [/\b(w1|...|wn)\b/i] *)
Definition wholeWords (ws : list string) : RegExp :=
  mkRegExp (Seq WordB (Seq (alts (map word ws)) WordB)) true.

(** ASCII letters, and the regular expressions whose matches cannot depend
    on the case of ASCII letters in the input: those with the [i] flag, and
    flagless character classes that list no ASCII letter. *)
Definition isAsciiLetter (c : N) : bool :=
  ((65 <=? c) && (c <=? 90) || (97 <=? c) && (c <=? 122))%N.

(** ASCII lower-casing of one code unit. *)
Definition lowerAscii (c : N) : N :=
  if (65 <=? c)%N && (c <=? 90)%N then (c + 32)%N else c.

Definition caseBlind (re : RegExp) : bool :=
  ignoreCase re ||
  match source re with
  | Class cs => forallb (fun c => negb (isAsciiLetter c)) cs
  | _ => false
  end.

End RegExp.
Import RegExp.

(* ===================================================================== *)
(** * lib/ai.ts: emotion and toxicity classifiers *)
(* ===================================================================== *)

Module Ai.

Inductive Emotion : Type := neutral | happy | sad | angry | stressed | anxious.

#[export] Instance Emotion_eq_dec : EqDecision Emotion.
Proof. solve_decision. Defined.

(** [/[...]/] : a character class without flags.  The classes are the code
    units the source file holds between the brackets, in its order. *)
Definition anyOf (cs : list N) : RegExp := mkRegExp (Class cs) false.

(** [emotionPatterns], as [Object.entries] enumerates it: string keys in
    insertion order. *)
Definition emotionPatterns : list (Emotion * list RegExp) :=
  [ (happy,
      [ wholeWords ["happy"; "joy"; "excited"; "amazing"; "wonderful"; "great";
                    "awesome"; "love"; "fantastic"; "brilliant"];
        anyOf [0x11f; 0x178; 0x2dc; 0x160; 0x11f; 0x178; 0x2dc; 0x201e;
               0x11f; 0x178; 0x2dc; 0x192; 0x11f; 0x178; 0xa5; 0xb0;
               0xe2; 0xa4; 0xef; 0xb8; 0x11f; 0x178; 0x2019; 0x2022;
               0x11f; 0x178; 0x2030; 0xe2; 0x153; 0xa8]%N ]);
    (sad,
      [ wholeWords ["sad"; "depressed"; "down"; "lonely"; "crying"; "miss";
                    "hurt"; "heartbroken"; "disappointed"];
        anyOf [0x11f; 0x178; 0x2dc; 0xa2; 0x11f; 0x178; 0x2dc; 0xad;
               0x11f; 0x178; 0x2dc; 0x201d; 0x11f; 0x178; 0x2019; 0x201d;
               0x11f; 0x178; 0x2dc]%N ]);
    (angry,
      [ wholeWords ["angry"; "mad"; "furious"; "hate"; "annoyed"; "frustrated";
                    "pissed"; "rage"];
        anyOf [0x11f; 0x178; 0x2dc; 0xa0; 0x11f; 0x178; 0x2dc; 0xa1;
               0x11f; 0x178; 0xa4; 0xac]%N ]);
    (stressed,
      [ wholeWords ["stressed"; "overwhelmed"; "exhausted"; "tired";
                    "burned out"; "can't cope"; "too much"];
        anyOf [0x11f; 0x178; 0x2dc; 0xab; 0x11f; 0x178; 0x2dc; 0xa9;
               0x11f; 0x178; 0x2dc; 0xa4]%N ]);
    (anxious,
      [ wholeWords ["anxious"; "worried"; "nervous"; "scared"; "afraid";
                    "panic"; "anxiety"; "fear"];
        anyOf [0x11f; 0x178; 0x2dc; 0xb0; 0x11f; 0x178; 0x2dc; 0xa8;
               0x11f; 0x178; 0x2dc; 0xb1]%N ]);
    (neutral, []) ].

Definition toxicPatterns : list RegExp :=
  [ wholeWords ["kill"; "die"; "hate"; "stupid"; "idiot"; "dumb"; "loser";
                "ugly"; "fat"; "retard"];
    wholeWords ["fuck"; "shit"; "damn"; "ass"; "bitch"];
    mkRegExp (alts [word "threatening"; word "harass"; word "bully"]) true ].

(** The inner loop of [analyzeEmotion]: does some pattern of the entry
    match? *)
Definition anyPatternMatches (patterns : list RegExp) (text : jsstring) : bool :=
  existsb (fun pattern => test pattern text) patterns.

(** [emotionPatterns[emotion]] *)
Definition patternsOf (emotion : Emotion) : list RegExp :=
  default [] (snd <$> List.find (fun entry => bool_decide (entry.1 = emotion))
                                emotionPatterns).

(** Some pattern listed for [emotion] matches [text]. *)
Definition matches (emotion : Emotion) (text : jsstring) : bool :=
  anyPatternMatches (patternsOf emotion) text.

(** The outer loop of [analyzeEmotion] over the remaining entries. *)
Fixpoint analyzeEmotion_from (entries : list (Emotion * list RegExp))
  (text : jsstring) : Emotion :=
  match entries with
  | [] => neutral
  | (emotion, patterns) :: rest =>
      if decide (emotion = neutral) then analyzeEmotion_from rest text
      else if anyPatternMatches patterns text then emotion
      else analyzeEmotion_from rest text
  end.

Definition analyzeEmotion (text : jsstring) : Emotion :=
  analyzeEmotion_from emotionPatterns text.

Record ToxicityResult : Type :=
  mkToxicity { isToxic : bool; reason : option string }.

(** [detectToxicity].  [String.prototype.toLowerCase] follows the Unicode
    case tables of the engine; it is taken as a parameter. *)
Definition detectToxicity (toLowerCase : jsstring -> jsstring)
  (text : jsstring) : ToxicityResult :=
  let lowerText := toLowerCase text in
  if existsb (fun pattern => test pattern lowerText) toxicPatterns
  then mkToxicity true (Some "Message contains potentially harmful language")
  else mkToxicity false None.

(** [toLowerCase] restricted to ASCII letters: what the engine computes on
    strings that hold no other cased character. *)
Definition toLowerCase_ascii (s : jsstring) : jsstring :=
  map (fun c => if (65 <=? c)%N && (c <=? 90)%N then (c + 32)%N else c) s.

(** What [getSupportiveResponse] can evaluate to: [null], a text, or
    [undefined] (an array read outside its bounds). *)
Inductive Support : Type :=
| SupportNull
| SupportUndefined
| SupportText (s : string).

(** The [responses] table of [getSupportiveResponse]; it has no entry for
    [neutral] and [happy]. *)
Definition responses (emotion : Emotion) : list string :=
  match emotion with
  | sad =>
      [ "I notice you might be feeling down. Remember, it's okay to feel this way. Would you like to take a moment to breathe?";
        "I'm here for you. Sometimes talking helps. Take your time.";
        "It's okay to feel sad. Would you like some suggestions for self-care?" ]
  | angry =>
      [ "I sense some frustration. Take a deep breath - in for 4 seconds, hold for 4, out for 4.";
        "Strong emotions are valid. Would stepping away for a moment help?";
        "It's okay to feel this way. Let's take a moment before continuing." ]
  | stressed =>
      [ "You seem overwhelmed. Remember to take breaks. Your wellbeing matters most.";
        "One thing at a time. Would you like to try a quick breathing exercise?";
        "It's okay to step back. You don't have to respond right away." ]
  | anxious =>
      [ "I notice some worry in your words. Remember, you're in a safe space here.";
        "Take a moment to ground yourself. Look around and name 5 things you can see.";
        "It's okay to feel anxious. Would you like some calming suggestions?" ]
  | neutral | happy => []
  end.

(** [getSupportiveResponse]; [random] is what [Math.random()] returns, a
    number in [0, 1), taken as a rational. *)
Definition getSupportiveResponse (random : Q) (emotion : Emotion) : Support :=
  match emotion with
  | neutral | happy => SupportNull
  | _ =>
      let emotionResponses := responses emotion in
      let index := Qfloor (random * inject_Z (Z.of_nat (length emotionResponses))) in
      if index <? 0 then SupportUndefined
      else match emotionResponses !! Z.to_nat index with
           | Some text => SupportText text
           | None => SupportUndefined
           end
  end.

End Ai.
Import Ai.

(* ===================================================================== *)
(** * The realtime database, the host and the effect monad *)
(* ===================================================================== *)

Module Firebase.

(** [Omit<Message, 'id'>]: what lies under [chats/c/messages/k].  The
    database is schemaless and the hooks also write single children
    ([isDeleted], [deletedAt]), so every child may be absent. *)
Record MessageData : Type := mkMessageData {
  senderId : option string;
  senderName : option jsstring;
  text : option jsstring;
  timestamp : option Z;
  emotion : option Emotion;
  isToxic : option bool;
  isDeleted : option bool;
  deletedAt : option Z }.

Definition noMessageData : MessageData :=
  mkMessageData None None None None None None None None.

(** [Omit<Chat, 'id'>], the object [createChat] writes. *)
Record ChatData : Type := mkChatData {
  participants : list string;
  participantNames : gmap string jsstring;
  lastMessage : option jsstring;
  lastMessageTime : option Z;
  isGroup : bool;
  groupName : option jsstring;
  createdAt : Z }.

(** The subtree [chats/c]: the children of the chat record, each possibly
    absent, and the two sub-collections. *)
Record ChatNode : Type := mkChatNode {
  n_participants : option (list string);
  n_participantNames : option (gmap string jsstring);
  n_isGroup : option bool;
  n_groupName : option jsstring;
  n_createdAt : option Z;
  n_lastMessage : option jsstring;
  n_lastMessageTime : option Z;
  n_messages : gmap string MessageData;
  n_typing : gmap string bool }.

Definition noChatNode : ChatNode :=
  mkChatNode None None None None None None None ∅ ∅.

(** The tree, restricted to the paths the embedded code addresses:
    [chats/c/...], [userChats/u/c] and [users/u/todayUsage]. *)
Record Store : Type := mkStore {
  chats : gmap string ChatNode;
  userChats : gmap string (gmap string bool);
  usage : gmap string Z }.

(** The subtree at [chats/c]; an absent path reads as the empty subtree. *)
Definition chatNode (st : Store) (c : string) : ChatNode :=
  default noChatNode (chats st !! c).

Definition messageData (st : Store) (c k : string) : MessageData :=
  default noMessageData (n_messages (chatNode st c) !! k).

(** One [set(ref(database, path), value)] of the hooks, by path. *)
Inductive Write : Type :=
| SetMessage (c k : string) (m : MessageData)   (* chats/c/messages/k *)
| SetLastMessage (c : string) (s : jsstring)    (* chats/c/lastMessage *)
| SetLastMessageTime (c : string) (t : Z)       (* chats/c/lastMessageTime *)
| SetIsDeleted (c k : string) (b : bool)        (* chats/c/messages/k/isDeleted *)
| SetDeletedAt (c k : string) (t : Z)           (* chats/c/messages/k/deletedAt *)
| SetTyping (c u : string) (b : bool)           (* chats/c/typing/u *)
| SetChat (c : string) (d : ChatData)           (* chats/c *)
| SetUserChat (u c : string) (b : bool)         (* userChats/u/c *)
| SetTodayUsage (u : string) (n : Z).           (* users/u/todayUsage *)

Definition updChat (f : ChatNode -> ChatNode) (c : string) (st : Store) : Store :=
  mkStore (<[c := f (chatNode st c)]> (chats st)) (userChats st) (usage st).

Definition updMessage (f : MessageData -> MessageData) (k : string)
  (n : ChatNode) : ChatNode :=
  mkChatNode (n_participants n) (n_participantNames n) (n_isGroup n)
    (n_groupName n) (n_createdAt n) (n_lastMessage n) (n_lastMessageTime n)
    (<[k := f (default noMessageData (n_messages n !! k))]> (n_messages n))
    (n_typing n).

(** [set] overwrites the subtree at its path and leaves the siblings. *)
Definition applyWrite (w : Write) (st : Store) : Store :=
  match w with
  | SetMessage c k m => updChat (updMessage (fun _ => m) k) c st
  | SetLastMessage c s =>
      updChat (fun n =>
        mkChatNode (n_participants n) (n_participantNames n) (n_isGroup n)
          (n_groupName n) (n_createdAt n) (Some s) (n_lastMessageTime n)
          (n_messages n) (n_typing n)) c st
  | SetLastMessageTime c t =>
      updChat (fun n =>
        mkChatNode (n_participants n) (n_participantNames n) (n_isGroup n)
          (n_groupName n) (n_createdAt n) (n_lastMessage n) (Some t)
          (n_messages n) (n_typing n)) c st
  | SetIsDeleted c k b =>
      updChat (updMessage (fun m =>
        mkMessageData (senderId m) (senderName m) (text m) (timestamp m)
          (emotion m) (isToxic m) (Some b) (deletedAt m)) k) c st
  | SetDeletedAt c k t =>
      updChat (updMessage (fun m =>
        mkMessageData (senderId m) (senderName m) (text m) (timestamp m)
          (emotion m) (isToxic m) (isDeleted m) (Some t)) k) c st
  | SetTyping c u b =>
      updChat (fun n =>
        mkChatNode (n_participants n) (n_participantNames n) (n_isGroup n)
          (n_groupName n) (n_createdAt n) (n_lastMessage n) (n_lastMessageTime n)
          (n_messages n) (<[u := b]> (n_typing n))) c st
  | SetChat c d =>
      updChat (fun _ =>
        mkChatNode (Some (participants d)) (Some (participantNames d))
          (Some (isGroup d)) (groupName d) (Some (createdAt d))
          (lastMessage d) (lastMessageTime d) ∅ ∅) c st
  | SetUserChat u c b =>
      mkStore (chats st)
        (<[u := <[c := b]> (default ∅ (userChats st !! u))]> (userChats st))
        (usage st)
  | SetTodayUsage u n =>
      mkStore (chats st) (userChats st) (<[u := n]> (usage st))
  end.

(** Toasts the wellbeing provider raises. *)
Inductive Toast : Type := BreakToast | DailyLimitToast.

(** What a run does that an observer can see, oldest first. *)
Inductive Event : Type :=
| CalledDetectToxicity (text : jsstring)
| CalledAnalyzeEmotion (text : jsstring)
| Wrote (w : Write)
| Toasted (t : Toast).

Definition isWrite (e : Event) : bool :=
  match e with Wrote _ => true | _ => false end.

Definition isToast (t : Toast) (e : Event) : bool :=
  match e with
  | Toasted BreakToast => match t with BreakToast => true | _ => false end
  | Toasted DailyLimitToast => match t with DailyLimitToast => true | _ => false end
  | _ => false
  end.

(** How many times the toast [t] was raised in a log. *)
Definition countToasts (t : Toast) (l : list Event) : nat :=
  length (List.filter (isToast t) l).

(** What the hooks get from their environment: the engine's case mapping,
    the clock ([now n] is what the [n]-th call of [Date.now()] returns)
    and the key generator of [push] ([pushKey n] is the [n]-th key). *)
Record Host : Type := mkHost {
  toLowerCase : jsstring -> jsstring;
  now : nat -> Z;
  pushKey : nat -> string }.

(** The clock shows [t] on [count] consecutive readings, from reading
    number [from] on: a callback that runs at time [t]. *)
Definition readsAt (h : Host) (from count : nat) (t : Z) : Prop :=
  forall i, (i < count)%nat -> now h (from + i) = t.

Record World : Type := mkWorld {
  db : Store;
  clockReads : nat;
  pushes : nat;
  log : list Event }.

Inductive JsError : Type := Error (message : string).

Inductive Completion (A : Type) : Type :=
| Normal (a : A)
| Throw (e : JsError).
Arguments Normal {A} a.
Arguments Throw {A} e.

(** A computation of the hooks: it reads the host, changes the world and
    completes normally or throws (for an async function: resolves or
    rejects). *)
Definition Js (A : Type) : Type := Host -> World -> Completion A * World.

Definition ret {A} (a : A) : Js A := fun _ w => (Normal a, w).

Definition bind {A B} (m : Js A) (k : A -> Js B) : Js B :=
  fun h w =>
    match m h w with
    | (Normal a, w') => k a h w'
    | (Throw e, w') => (Throw e, w')
    end.

Definition throw {A} (e : JsError) : Js A := fun _ w => (Throw e, w).

Definition emit (e : Event) : Js unit :=
  fun _ w => (Normal tt, mkWorld (db w) (clockReads w) (pushes w) (log w ++ [e])).

(** [Date.now()] *)
Definition Date_now : Js Z :=
  fun h w => (Normal (now h (clockReads w)),
              mkWorld (db w) (S (clockReads w)) (pushes w) (log w)).

(** [push(ref).key]: a new child key; nothing is written yet. *)
Definition push : Js string :=
  fun h w => (Normal (pushKey h (pushes w)),
              mkWorld (db w) (clockReads w) (S (pushes w)) (log w)).

(** [await set(ref, value)] *)
Definition set (wr : Write) : Js unit :=
  fun _ w => (Normal tt,
              mkWorld (applyWrite wr (db w)) (clockReads w) (pushes w)
                      (log w ++ [Wrote wr])).

(** [toast({...})] *)
Definition toast (t : Toast) : Js unit := emit (Toasted t).

End Firebase.
Import Firebase.

Declare Scope js_scope.
Delimit Scope js_scope with js.
Notation "'let*' x ':=' m 'in' k" := (bind m (fun x => k))
  (at level 10, x name, m at level 100, k at level 200) : js_scope.
Notation "'do' m 'then' k" := (bind m (fun _ => k))
  (at level 10, m at level 100, k at level 200) : js_scope.

(* ===================================================================== *)
(** * What the auth context hands to the hooks *)
(* ===================================================================== *)

Module User.
(** The identity provider's user: the fields the hooks read. *)
Record t : Type := mk { uid : string; displayName : option jsstring }.
End User.

Module UserProfile.
(** [interface UserProfile]: the fields the hooks read. *)
Record t : Type := mk {
  displayName : option jsstring;
  dailyUsageLimit : Z;
  todayUsage : Z }.
End UserProfile.

(** [interface Message]: a message record with its key. *)
Module Message.
Record t : Type := mk {
  id : string;
  senderId : option string;
  senderName : option jsstring;
  text : option jsstring;
  timestamp : option Z;
  emotion : option Emotion;
  isToxic : option bool;
  isDeleted : option bool;
  deletedAt : option Z }.

(** [{ id, ...msg }] *)
Definition withId (id : string) (msg : MessageData) : t :=
  mk id (Firebase.senderId msg) (Firebase.senderName msg) (Firebase.text msg)
     (Firebase.timestamp msg) (Firebase.emotion msg) (Firebase.isToxic msg)
     (Firebase.isDeleted msg) (Firebase.deletedAt msg).
End Message.

(** [interface Chat] *)
Module Chat.
Record t : Type := mk {
  id : string;
  participants : list string;
  participantNames : gmap string jsstring;
  lastMessage : option jsstring;
  lastMessageTime : option Z;
  isGroup : bool;
  groupName : option jsstring;
  createdAt : Z }.

(** [{ id: chatId, ...chatSnapshot.val() } as Chat] *)
Definition withId (id : string) (d : ChatData) : t :=
  mk id (Firebase.participants d) (Firebase.participantNames d)
     (Firebase.lastMessage d) (Firebase.lastMessageTime d)
     (Firebase.isGroup d) (Firebase.groupName d) (Firebase.createdAt d).
End Chat.

(* ===================================================================== *)
(** * hooks/useChat.ts *)
(* ===================================================================== *)

Module UseChat.

Local Open Scope js_scope.

(** Truthiness of [chatId : string | null]. *)
Definition selected (chatId : option string) : option string :=
  match chatId with
  | Some c => if decide (c = "") then None else Some c
  | None => None
  end.

(** [x || 0] on an optional number (0 itself is falsy as well). *)
Definition orZero (x : option Z) : Z := default 0 x.

(** Truthiness of an optional boolean child. *)
Definition flagSet (b : option bool) : bool := default false b.

(** [displayName || 'User'] on [string | null]. *)
Definition nameOrUser (n : option jsstring) : jsstring :=
  or_else (default [] n) (lit "User").

(** ** useChat(chatId) *)

(** The listener on the message query: the argument of [setMessages].
    [data] is [snapshot.val()]: [null], or the children of the query by
    key in the enumeration order of [Object.entries]. *)
Definition onMessagesValue (data : option (list (string * MessageData)))
  : list Message.t :=
  match data with
  | Some entries =>
      let messageList := map (fun '(id, msg) => Message.withId id msg) entries in
      filter (fun m => negb (flagSet (Message.isDeleted m)) = true) messageList
  | None => []
  end.

(** What the query [orderByChild('timestamp'), limitToLast(100)] on
    [chats/c/messages] can deliver for a store: [null] when there are no
    messages, otherwise children of the store under their keys, no key
    twice, all of them when there are at most 100 and 100 of them otherwise.
    Which 100 the database keeps (the latest by [timestamp]) is left open. *)
Definition isMessagesSnapshot (st : Store) (c : string)
  (data : option (list (string * MessageData))) : Prop :=
  let stored := n_messages (chatNode st c) in
  match data with
  | None => stored = ∅
  | Some entries =>
      entries <> [] /\
      NoDup (entries.*1) /\
      length entries = Nat.min (size stored) 100 /\
      forall id msg, (id, msg) ∈ entries -> stored !! id = Some msg
  end.

(** The listener on the typing map: the argument of [setIsTyping]. *)
Definition onTypingValue (uid : string) (data : option (list (string * bool)))
  : list (string * bool) :=
  match data with
  | Some entries =>
      filter (fun e => bool_decide (e.1 ≠ uid) && e.2 = true) entries
  | None => []
  end.

Definition setTypingStatus (chatId : option string) (user : option User.t)
  (typing : bool) : Js unit :=
  match selected chatId, user with
  | Some c, Some u => set (SetTyping c (User.uid u) typing)
  | _, _ => ret tt
  end.

Definition toxicMessage : string :=
  "This message contains harmful content. Please rephrase it kindly.".

(** [await detectToxicity(text)] and [await analyzeEmotion(text)], with
    the call recorded. *)
Definition callDetectToxicity (text : jsstring) : Js ToxicityResult :=
  fun h w => bind (emit (CalledDetectToxicity text))
                  (fun _ => ret (detectToxicity (toLowerCase h) text)) h w.

Definition callAnalyzeEmotion (text : jsstring) : Js Emotion :=
  do emit (CalledAnalyzeEmotion text) then ret (analyzeEmotion text).

(** [sendMessage]; the result is the emotion, or [undefined]. *)
Definition sendMessage (chatId : option string) (user : option User.t)
  (userProfile : option UserProfile.t) (text : jsstring) : Js (option Emotion) :=
  match selected chatId, user, userProfile, truthy (trim text) with
  | Some c, Some u, Some p, true =>
      let* toxicityResult := callDetectToxicity text in
      if Ai.isToxic toxicityResult then throw (Error toxicMessage)
      else
        let* emotion := callAnalyzeEmotion text in
        let* newMessageKey := push in
        let* t := Date_now in
        let message :=
          mkMessageData (Some (User.uid u))
            (Some (nameOrUser (UserProfile.displayName p)))
            (Some (trim text)) (Some t) (Some emotion) (Some false) None None in
        do set (SetMessage c newMessageKey message) then
        do set (SetLastMessage c (substring0 50 (trim text))) then
        let* t' := Date_now in
        do set (SetLastMessageTime c t') then
        do setTypingStatus chatId user false then
        ret (Some emotion)
  | _, _, _, _ => ret None
  end.

Definition deleteMessage (chatId : option string) (user : option User.t)
  (messageId : string) : Js unit :=
  match selected chatId, user with
  | Some c, Some _ =>
      do set (SetIsDeleted c messageId true) then
      let* t := Date_now in
      set (SetDeletedAt c messageId t)
  | _, _ => ret tt
  end.

(** ** useChats() *)

(** [Array.prototype.sort(compareFn)]: a stable sort; [compareFn a b > 0]
    puts [a] after [b].  Stable sorts agree on their result whenever the
    comparator is consistent, so insertion from the right stands for the
    engine's algorithm. *)
Section Sort.
Context {A : Type} (compareFn : A -> A -> Z).

Fixpoint insertSorted (x : A) (l : list A) : list A :=
  match l with
  | [] => [x]
  | y :: l' => if (0 <? compareFn x y) then y :: insertSorted x l' else x :: l
  end.

Fixpoint sort (l : list A) : list A :=
  match l with
  | [] => []
  | x :: l' => insertSorted x (sort l')
  end.
End Sort.

(** [(a, b) => (b.lastMessageTime || 0) - (a.lastMessageTime || 0)] *)
Definition byLastMessageTime (a b : Chat.t) : Z :=
  orZero (Chat.lastMessageTime b) - orZero (Chat.lastMessageTime a).

(** The listener on [userChats/uid]: the argument of [setChats].  [data] is
    [snapshot.val()], given by its keys; [readOnce chatId] is what the
    one-shot read of [chats/chatId] resolves to ([None] for [null]). *)
Definition onUserChatsValue (data : option (list string))
  (readOnce : string -> option ChatData) : list Chat.t :=
  match data with
  | Some chatIds =>
      let resolved :=
        map (fun chatId => Chat.withId chatId <$> readOnce chatId) chatIds in
      let chatList := omap (fun c => c) resolved in
      sort byLastMessageTime chatList
  | None => []
  end.

(** [Array.prototype.includes] on a list of strings. *)
Definition includes (x : string) (l : list string) : bool :=
  existsb (fun y => bool_decide (y = x)) l.

(** The predicate of [chats.find] in [createChat]. *)
Definition isDirectChatWith (uid participantId : string) (chat : Chat.t) : bool :=
  negb (Chat.isGroup chat) &&
  includes participantId (Chat.participants chat) &&
  includes uid (Chat.participants chat).

(** [createChat]; [chats] is the hook's state, the list the listener last
    published.  The result is the chat id, or [null]. *)
Definition createChat (user : option User.t) (chats : list Chat.t)
  (participantId : string) (participantName : jsstring) : Js (option string) :=
  match user with
  | None => ret None
  | Some u =>
      match List.find (isDirectChatWith (User.uid u) participantId) chats with
      | Some existingChat => ret (Some (Chat.id existingChat))
      | None =>
          let* chatId := push in
          let* t := Date_now in
          let chat :=
            mkChatData [User.uid u; participantId]
              (<[participantId := participantName]>
                 {[ User.uid u := nameOrUser (User.displayName u) ]})
              None None false None t in
          do set (SetChat chatId chat) then
          do set (SetUserChat (User.uid u) chatId true) then
          do set (SetUserChat participantId chatId true) then
          ret (Some chatId)
      end
  end.

(** The loop of [createGroupChat] over [allParticipants]. *)
Fixpoint setIndexEntries (participants : list string) (chatId : string) : Js unit :=
  match participants with
  | [] => ret tt
  | participantId :: rest =>
      do set (SetUserChat participantId chatId true) then
      setIndexEntries rest chatId
  end.

(** [createGroupChat]; [{ [user.uid]: ..., ...participantNames }] lets an
    entry of [participantNames] under the caller's uid replace the caller's
    own name. *)
Definition createGroupChat (user : option User.t) (participantIds : list string)
  (groupName : jsstring) (participantNames : gmap string jsstring)
  : Js (option string) :=
  match user with
  | None => ret None
  | Some u =>
      let* chatId := push in
      let allParticipants := User.uid u :: participantIds in
      let allNames :=
        participantNames ∪ {[ User.uid u := nameOrUser (User.displayName u) ]} in
      let* t := Date_now in
      let chat :=
        mkChatData allParticipants allNames None None true (Some groupName) t in
      do set (SetChat chatId chat) then
      do setIndexEntries allParticipants chatId then
      ret (Some chatId)
  end.

(** What the listener on [chats/c/typing] is handed for a store: [null]
    when the map is empty, otherwise its entries, each key once. *)
Definition isTypingSnapshot (st : Store) (c : string)
  (data : option (list (string * bool))) : Prop :=
  let stored := n_typing (chatNode st c) in
  match data with
  | None => stored = ∅
  | Some entries =>
      entries <> [] /\
      NoDup (entries.*1) /\
      forall u b, (u, b) ∈ entries <-> stored !! u = Some b
  end.

End UseChat.
Import UseChat.

(* ===================================================================== *)
(** * contexts/WellbeingContext.tsx *)
(* ===================================================================== *)

Module Wellbeing.

Local Open Scope js_scope.

(** The provider's React state. *)
Record State : Type := mkState {
  sessionStartTime : option Z;
  todayUsage : Z;
  dailyLimit : Z;
  showBreakReminder : bool;
  lastBreakReminder : Z }.

(** The [useState] initial values. *)
Definition initial : State := mkState None 0 120 false 0.

(** [x || d] on a number. *)
Definition orDefault (x d : Z) : Z := if decide (x = 0) then d else x.

(** Minutes between two clock readings, [(a - b) / 60000], as a rational
    (the quotient of two integers; comparing it with 30 gives what the
    floating-point quotient gives, 1800000 / 60000 being exactly 30). *)
Definition minutesBetween (a b : Z) : Q := (a - b) # 60000.

(** Effect "Track session time", when [user && isConfigured]: the body and
    the interval callback. *)
Definition startSession (st : State) : Js State :=
  let* t := Date_now in
  ret (mkState (Some t) (todayUsage st) (dailyLimit st)
               (showBreakReminder st) (lastBreakReminder st)).

Definition usageTick (uid : string) (st : State) : Js State :=
  let newUsage := todayUsage st + 1 in
  do set (SetTodayUsage uid newUsage) then
  ret (mkState (sessionStartTime st) newUsage (dailyLimit st)
               (showBreakReminder st) (lastBreakReminder st)).

(** Effect "Load user preferences". *)
Definition loadPreferences (userProfile : option UserProfile.t) (st : State) : State :=
  match userProfile with
  | Some p =>
      mkState (sessionStartTime st)
              (orDefault (UserProfile.todayUsage p) 0)
              (orDefault (UserProfile.dailyUsageLimit p) 120)
              (showBreakReminder st) (lastBreakReminder st)
  | None => st
  end.

(** Effect "Check for break reminders": is the interval installed, and its
    callback.  The callback closes over [sessionStartTime] and
    [lastBreakReminder] of the render that installed it; the effect lists
    both as dependencies, so they are the current ones. *)
Definition breakCheckInstalled (isConfigured : bool) (st : State) : bool :=
  match sessionStartTime st with
  | Some t => negb (bool_decide (t = 0)) && isConfigured
  | None => false
  end.

Definition breakCheck (sessionStart : Z) (st : State) : Js State :=
  let* t1 := Date_now in
  let sessionDuration := minutesBetween t1 sessionStart in
  let* t2 := Date_now in
  let timeSinceLastReminder := minutesBetween t2 (lastBreakReminder st) in
  if Qle_bool 30 sessionDuration && Qle_bool 30 timeSinceLastReminder then
    let* t3 := Date_now in
    do toast BreakToast then
    ret (mkState (sessionStartTime st) (todayUsage st) (dailyLimit st) true t3)
  else ret st.

Definition isLimitReached (st : State) : bool := dailyLimit st <=? todayUsage st.

(** The dependency array of the daily-limit effect:
    [isLimitReached, isConfigured, toast]; the third is the identity of the
    function [useToast] returned at that render. *)
Definition LimitDeps : Type := bool * bool * nat.

Definition limitDeps (isConfigured : bool) (toastRef : nat) (st : State) : LimitDeps :=
  (isLimitReached st, isConfigured, toastRef).

(** The body of the daily-limit effect. *)
Definition limitEffect (st : State) (isConfigured : bool) : Js unit :=
  if isLimitReached st && isConfigured then toast DailyLimitToast else ret tt.

(** [useEffect(effect, deps)] at a commit: the effect runs after the first
    render and after every render in which a dependency differs from the
    previous render's. *)
Definition useEffect {D : Type} `{EqDecision D} (prev : option D) (deps : D)
  (effect : Js unit) : Js unit :=
  if decide (prev = Some deps) then ret tt else effect.

(** One commit of the provider with state [st], as far as the daily-limit
    effect goes; the result is the dependency array to compare with next
    time. *)
Definition commitLimit (isConfigured : bool) (toastRef : nat)
  (prev : option LimitDeps) (st : State) : Js LimitDeps :=
  let deps := limitDeps isConfigured toastRef st in
  do useEffect prev deps (limitEffect st isConfigured) then ret deps.

(** A usage tick followed by the commit it causes. *)
Definition tickAndCommit (uid : string) (isConfigured : bool) (toastRef : nat)
  (prev : LimitDeps) (st : State) : Js (LimitDeps * State) :=
  let* st' := usageTick uid st in
  let* deps := commitLimit isConfigured toastRef (Some prev) st' in
  ret (deps, st').

(** [n] usage ticks in a row, each followed by its commit. *)
Fixpoint ticksAndCommits (n : nat) (uid : string) (isConfigured : bool)
  (toastRef : nat) (prev : LimitDeps) (st : State) : Js (LimitDeps * State) :=
  match n with
  | O => ret (prev, st)
  | S n' =>
      let* r := tickAndCommit uid isConfigured toastRef prev st in
      ticksAndCommits n' uid isConfigured toastRef r.1 r.2
  end.

Definition dismissBreakReminder (st : State) : State :=
  mkState (sessionStartTime st) (todayUsage st) (dailyLimit st) false
          (lastBreakReminder st).

Definition resetDailyUsage (user : option User.t) (isConfigured : bool)
  (st : State) : Js State :=
  match user with
  | Some u =>
      if isConfigured then
        do set (SetTodayUsage (User.uid u) 0) then
        ret (mkState (sessionStartTime st) 0 (dailyLimit st)
                     (showBreakReminder st) (lastBreakReminder st))
      else ret st
  | None => ret st
  end.

(** [n] runs of the usage interval callback. *)
Fixpoint usageTicks (n : nat) (uid : string) (st : State) : Js State :=
  match n with
  | O => ret st
  | S n' => let* st' := usageTick uid st in usageTicks n' uid st'
  end.

End Wellbeing.
Import Wellbeing.

(* ===================================================================== *)
(** * components/chat/ChatView.tsx: the send handler *)
(* ===================================================================== *)

Module ChatView.

(** A [toast({ title, description })] of the view. *)
Record Notice : Type := mkNotice { title : string; description : string }.

(** The view's React state, with the notices it has raised (oldest
    first). *)
Record State : Type := mkState {
  newMessage : jsstring;
  sending : bool;
  supportMessage : option string;
  notices : list Notice }.

(** [emotion && emotion !== 'neutral' && emotion !== 'happy'] *)
Definition needsSupport (emotion : option Emotion) : bool :=
  match emotion with
  | Some neutral | Some happy | None => false
  | Some _ => true
  end.

(** [handleSend], run to its end ([finally] included).  [chatId] is the
    view's prop, [user] and [userProfile] what the hook closed over,
    [random] the draw [getSupportiveResponse] makes if it is called. *)
Definition handleSend (chatId : string) (user : option User.t)
  (userProfile : option UserProfile.t) (random : Q) (st : State) : Js State :=
  if negb (truthy (trim (newMessage st))) || sending st then ret st
  else
    fun h w =>
      match sendMessage (Some chatId) user userProfile (newMessage st) h w with
      | (Normal emotion, w') =>
          let support :=
            if needsSupport emotion then
              match getSupportiveResponse random (default neutral emotion) with
              | SupportText text =>
                  if decide (text = "") then supportMessage st else Some text
              | _ => supportMessage st
              end
            else supportMessage st in
          (Normal (mkState [] false support (notices st)), w')
      | (Throw (Error message), w') =>
          (Normal (mkState (newMessage st) false (supportMessage st)
                     (notices st ++ [mkNotice "Couldn't send message" message])),
           w')
      end.

End ChatView.

(* ===================================================================== *)
(** * The chat's display name (ChatList.tsx, the dashboard page) *)
(* ===================================================================== *)

Module ChatList.

(** [getChatDisplayName]: the group's name, or the name stored for the
    first participant that is not the viewer.  [None] is [undefined], what
    reading a missing key of [participantNames] gives. *)
Definition getChatDisplayName (user : option User.t) (chat : Chat.t)
  : option jsstring :=
  if Chat.isGroup chat then
    Some (or_else (default [] (Chat.groupName chat)) (lit "Group Chat"))
  else
    let otherParticipantId :=
      List.find (fun p => negb (bool_decide (Some p = User.uid <$> user)))
                (Chat.participants chat) in
    match otherParticipantId with
    | Some other =>
        if decide (other = "") then Some (lit "Unknown")
        else Chat.participantNames chat !! other
    | None => Some (lit "Unknown")
    end.

End ChatList.

(* ===================================================================== *)
(** * The breathing exercise of the wellbeing widget *)
(* ===================================================================== *)

Module Breathing.

Inductive Phase : Type := inhale | hold | exhale.

(** The component's state, and how often [onClose] has been called. *)
Record State : Type := mkState {
  phase : Phase;
  count : Z;
  cycle : Z;
  closed : nat }.

Definition totalCycles : Z := 3.

(** The [useState] initial values. *)
Definition initial : State := mkState inhale 4 1 0.

(** One run of the one-second interval callback. *)
Definition tick (st : State) : State :=
  if count st <=? 1 then
    match phase st with
    | inhale => mkState hold 7 (cycle st) (closed st)
    | hold => mkState exhale 8 (cycle st) (closed st)
    | exhale =>
        if totalCycles <=? cycle st
        then mkState exhale 0 (cycle st) (S (closed st))
        else mkState inhale 4 (cycle st + 1) (closed st)
    end
  else mkState (phase st) (count st - 1) (cycle st) (closed st).

Fixpoint ticks (n : nat) (st : State) : State :=
  match n with
  | O => st
  | S n' => ticks n' (tick st)
  end.

End Breathing.

(* ===================================================================== *)
(** * Concrete data to run the embedding on *)
(* ===================================================================== *)

Module Fixtures.

(** A host whose strings are ASCII, whose clock starts at [t0] and
    advances by [dt] per reading, and whose keys are [k0], [k1], ... *)
Definition keyOf (n : nat) : string :=
  match n with
  | O => "k0" | 1%nat => "k1" | 2%nat => "k2" | _ => "k3"
  end.

Definition hostAt (t0 dt : Z) : Host :=
  mkHost toLowerCase_ascii (fun n => t0 + dt * Z.of_nat n) keyOf.

(** A host whose clock shows [a] on readings 0..2, [b] on readings
    3 and 4, and [c] from reading 5 on. *)
Definition hostShowing (a b c : Z) : Host :=
  mkHost toLowerCase_ascii
    (fun n => if (n <? 3)%nat then a else if (n <? 5)%nat then b else c) keyOf.

Definition emptyStore : Store := mkStore ∅ ∅ ∅.
Definition emptyWorld : World := mkWorld emptyStore 0 0 [].

Definition alice : User.t := User.mk "alice" (Some (lit "Alice")).
Definition aliceProfile : UserProfile.t := UserProfile.mk (Some (lit "Alice")) 120 0.

End Fixtures.

(* ===================================================================== *)
(** * Facts about strings *)
(* ===================================================================== *)

Lemma trimStart_blank (s : jsstring) :
  forallb isWhiteSpace s = true -> trimStart s = [].
Proof.
  induction s as [|c s IH]; simpl; [done|].
  intros [Hc Hs]%andb_prop. rewrite Hc. auto.
Qed.

Lemma trim_blank (s : jsstring) :
  forallb isWhiteSpace s = true -> trim s = [].
Proof.
  intros H. unfold trim, trimEnd. by rewrite (trimStart_blank s H).
Qed.

Lemma includes_spec (x : string) (l : list string) :
  includes x l = true <-> x ∈ l.
Proof.
  unfold includes. rewrite existsb_exists. split.
  - intros (y & Hy & Hxy). apply bool_decide_eq_true in Hxy. subst.
    by apply list_elem_of_In.
  - intros H. exists x. split; [by apply list_elem_of_In|].
    by apply bool_decide_eq_true.
Qed.

(* ===================================================================== *)
(** * Facts about the store *)
(* ===================================================================== *)

Lemma chatNode_updChat (f : ChatNode -> ChatNode) (c c' : string) (st : Store) :
  chatNode (updChat f c st) c' =
  if decide (c = c') then f (chatNode st c) else chatNode st c'.
Proof.
  unfold chatNode at 1. unfold updChat. cbn [chats].
  rewrite lookup_insert. by case_decide.
Qed.

Lemma chatNode_updChat_eq (f : ChatNode -> ChatNode) (c : string) (st : Store) :
  chatNode (updChat f c st) c = f (chatNode st c).
Proof. rewrite chatNode_updChat. by rewrite decide_True. Qed.

Lemma chatNode_updChat_ne (f : ChatNode -> ChatNode) (c c' : string) (st : Store) :
  c <> c' -> chatNode (updChat f c st) c' = chatNode st c'.
Proof. intros. rewrite chatNode_updChat. by rewrite decide_False. Qed.

Lemma updChat_updChat (f g : ChatNode -> ChatNode) (c : string) (st : Store) :
  updChat g c (updChat f c st) = updChat (fun n => g (f n)) c st.
Proof.
  unfold updChat at 1. rewrite chatNode_updChat_eq.
  unfold updChat. cbn [chats userChats usage]. by rewrite insert_insert_eq.
Qed.

Lemma updChat_ext (f g : ChatNode -> ChatNode) (c : string) (st : Store) :
  f (chatNode st c) = g (chatNode st c) -> updChat f c st = updChat g c st.
Proof. intros H. unfold updChat. by rewrite H. Qed.

Lemma updMessage_updMessage (f g : MessageData -> MessageData) (k : string)
  (n : ChatNode) :
  updMessage g k (updMessage f k n) = updMessage (fun m => g (f m)) k n.
Proof.
  unfold updMessage. cbn [n_messages n_participants n_participantNames n_isGroup
    n_groupName n_createdAt n_lastMessage n_lastMessageTime n_typing].
  rewrite lookup_insert_eq. cbn [default]. by rewrite insert_insert_eq.
Qed.

Lemma updMessage_ext (f g : MessageData -> MessageData) (k : string) (n : ChatNode) :
  f (default noMessageData (n_messages n !! k))
    = g (default noMessageData (n_messages n !! k)) ->
  updMessage f k n = updMessage g k n.
Proof. intros H. unfold updMessage. by rewrite H. Qed.

Lemma messageData_updMessage (f : MessageData -> MessageData) (c k : string)
  (st : Store) :
  messageData (updChat (updMessage f k) c st) c k = f (messageData st c k).
Proof.
  unfold messageData. rewrite chatNode_updChat_eq. unfold updMessage.
  cbn [n_messages]. by rewrite lookup_insert_eq.
Qed.

Lemma stored_updMessage (f : MessageData -> MessageData) (c k : string)
  (st : Store) :
  n_messages (chatNode (updChat (updMessage f k) c st) c) !! k
  = Some (f (messageData st c k)).
Proof.
  rewrite chatNode_updChat_eq. unfold updMessage. cbn [n_messages].
  by rewrite lookup_insert_eq.
Qed.

(* ===================================================================== *)
(** * sendMessage *)
(* ===================================================================== *)

Section SendMessage.

Variables (h : Host) (w : World).
Variables (chatId : option string) (user : option User.t)
          (userProfile : option UserProfile.t) (text : jsstring).

(** C10.  When a precondition of [sendMessage] fails (no chat selected, no
    user, no profile, or a text of white space only, the empty text
    included), the call completes normally with [undefined] and leaves the
    world as it was: the store, the log (so no classifier call and no
    write), the clock and the key generator are untouched. *)
Theorem sendMessage_precondition_fails :
  selected chatId = None \/ user = None \/ userProfile = None \/
    forallb isWhiteSpace text = true ->
  sendMessage chatId user userProfile text h w = (Normal None, w).
Proof.
  unfold sendMessage.
  intros [H | [H | [H | H]]].
  - by rewrite H.
  - rewrite H. by destruct (selected chatId).
  - rewrite H. by destruct (selected chatId), user.
  - rewrite (trim_blank text H). simpl.
    by destruct (selected chatId), user, userProfile.
Qed.

(** C2.  When [detectToxicity] flags the text, [sendMessage] writes
    nothing: the store is unchanged, no key is generated and the log gains
    no write.  With the preconditions met, the call throws the
    harmful-content error, having called the toxicity classifier only. *)
Theorem sendMessage_toxic_rejected :
  Ai.isToxic (detectToxicity (toLowerCase h) text) = true ->
  let r := sendMessage chatId user userProfile text h w in
  db r.2 = db w /\
  pushes r.2 = pushes w /\
  (exists evs, log r.2 = log w ++ evs /\ Forall (fun e => isWrite e = false) evs) /\
  (forall c u p,
      selected chatId = Some c -> user = Some u -> userProfile = Some p ->
      trim text <> [] ->
      r.1 = Throw (Error toxicMessage) /\
      log r.2 = log w ++ [CalledDetectToxicity text]).
Proof.
  intros Htox. unfold sendMessage.
  assert (Hnone : let r := (Normal (@None Emotion), w) in
            db r.2 = db w /\ pushes r.2 = pushes w /\
            (exists evs, log r.2 = log w ++ evs /\
                         Forall (fun e => isWrite e = false) evs)).
  { simpl. repeat split. exists []. by rewrite app_nil_r. }
  destruct (selected chatId) as [c|]; [|by split_and!; try apply Hnone].
  destruct user as [u|]; [|by split_and!; try apply Hnone].
  destruct userProfile as [p|]; [|by split_and!; try apply Hnone].
  destruct (trim text) as [|ch rest] eqn:Htrim; [by split_and!; try apply Hnone|].
  cbn [truthy]. unfold bind, callDetectToxicity, bind, emit, ret, throw.
  cbn. rewrite Htox. cbn.
  repeat split.
  exists [CalledDetectToxicity text]. split; [done|].
  by repeat constructor.
Qed.

(** C1 (as the code has it).  A send whose preconditions hold, whose text
    is not flagged and whose [push] key is new creates exactly one message
    record, in the selected chat and with the trimmed text; the chat's
    [lastMessage] becomes the first 50 code units of the trimmed text; and
    [lastMessageTime] becomes the clock reading taken for that write, the
    one after the reading stamped on the message. *)
Theorem sendMessage_creates_one_message (c : string) (u : User.t) (p : UserProfile.t) :
  selected chatId = Some c -> user = Some u -> userProfile = Some p ->
  trim text <> [] ->
  Ai.isToxic (detectToxicity (toLowerCase h) text) = false ->
  n_messages (chatNode (db w) c) !! pushKey h (pushes w) = None ->
  let r := sendMessage chatId user userProfile text h w in
  let k := pushKey h (pushes w) in
  let message :=
    mkMessageData (Some (User.uid u))
      (Some (nameOrUser (UserProfile.displayName p)))
      (Some (trim text)) (Some (now h (clockReads w)))
      (Some (analyzeEmotion text)) (Some false) None None in
  r.1 = Normal (Some (analyzeEmotion text)) /\
  n_messages (chatNode (db r.2) c) = <[k := message]> (n_messages (chatNode (db w) c)) /\
  size (n_messages (chatNode (db r.2) c)) = S (size (n_messages (chatNode (db w) c))) /\
  (forall c', c' <> c -> chatNode (db r.2) c' = chatNode (db w) c') /\
  n_lastMessage (chatNode (db r.2) c) = Some (substring0 50 (trim text)) /\
  n_lastMessageTime (chatNode (db r.2) c) = Some (now h (S (clockReads w))) /\
  log r.2 = log w ++
    [ CalledDetectToxicity text; CalledAnalyzeEmotion text;
      Wrote (SetMessage c k message);
      Wrote (SetLastMessage c (substring0 50 (trim text)));
      Wrote (SetLastMessageTime c (now h (S (clockReads w))));
      Wrote (SetTyping c (User.uid u) false) ].
Proof.
  intros Hc Hu Hp Htrim Htox Hfresh. unfold sendMessage, setTypingStatus.
  rewrite Hc, Hu, Hp.
  assert (Htruthy : truthy (trim text) = true) by by destruct (trim text).
  rewrite Htruthy.
  unfold callDetectToxicity, callAnalyzeEmotion, bind, emit, ret, push,
    Date_now, set.
  cbn -[trim analyzeEmotion detectToxicity applyWrite substring0].
  rewrite Htox.
  cbn -[trim analyzeEmotion detectToxicity applyWrite substring0].
  unfold applyWrite. rewrite !updChat_updChat.
  split; [done|].
  rewrite chatNode_updChat_eq. cbn -[trim analyzeEmotion substring0].
  split; [done|].
  split; [by rewrite map_size_insert_None|].
  split; [intros c' Hne; by rewrite chatNode_updChat_ne|].
  split; [done|]. split; [done|].
  by rewrite <- !app_assoc.
Qed.

End SendMessage.

(** C10 at a concrete input: a chat is selected, the user and the profile
    are there, and the text is three spaces. *)
Lemma sendMessage_precondition_fails_witness :
  sendMessage (Some "c1") (Some Fixtures.alice) (Some Fixtures.aliceProfile)
    (lit "   ") (Fixtures.hostAt 1000 1) Fixtures.emptyWorld
  = (Normal None, Fixtures.emptyWorld).
Proof.
  apply (sendMessage_precondition_fails (Fixtures.hostAt 1000 1)
           Fixtures.emptyWorld (Some "c1") (Some Fixtures.alice)
           (Some Fixtures.aliceProfile) (lit "   ")).
  right; right; right. reflexivity.
Defined.

(** C2 at a concrete input: the toxic-content scenario. *)
Lemma sendMessage_toxic_rejected_witness :
  let r := sendMessage (Some "c1") (Some Fixtures.alice) (Some Fixtures.aliceProfile)
             (lit "you are an idiot") (Fixtures.hostAt 1000 1) Fixtures.emptyWorld in
  r.1 = Throw (Error toxicMessage) /\ db r.2 = Fixtures.emptyStore.
Proof.
  destruct (sendMessage_toxic_rejected (Fixtures.hostAt 1000 1)
              Fixtures.emptyWorld (Some "c1") (Some Fixtures.alice)
              (Some Fixtures.aliceProfile) (lit "you are an idiot"))
    as (Hdb & _ & _ & Hthrow); [vm_compute; reflexivity|].
  split; [|exact Hdb].
  apply (Hthrow "c1" Fixtures.alice Fixtures.aliceProfile);
    [reflexivity | reflexivity | reflexivity | vm_compute; discriminate].
Defined.

(** C1 (as the code has it) at a concrete input: Alice sends "hello" into a
    chat that has no messages yet. *)
Lemma sendMessage_creates_one_message_witness :
  let r := sendMessage (Some "c1") (Some Fixtures.alice) (Some Fixtures.aliceProfile)
             (lit "hello") (Fixtures.hostAt 1000 1) Fixtures.emptyWorld in
  r.1 = Normal (Some neutral) /\
  size (n_messages (chatNode (db r.2) "c1")) = 1%nat /\
  n_lastMessage (chatNode (db r.2) "c1") = Some (lit "hello") /\
  n_lastMessageTime (chatNode (db r.2) "c1") = Some 1001.
Proof.
  destruct (sendMessage_creates_one_message (Fixtures.hostAt 1000 1)
              Fixtures.emptyWorld (Some "c1") (Some Fixtures.alice)
              (Some Fixtures.aliceProfile) (lit "hello")
              "c1" Fixtures.alice Fixtures.aliceProfile)
    as (Hr & _ & Hsize & _ & Hlast & Htime & _);
    [reflexivity | reflexivity | reflexivity | vm_compute; discriminate
    | vm_compute; reflexivity | reflexivity |].
  split; [exact Hr|]. split; [exact Hsize|]. split; [exact Hlast|]. exact Htime.
Defined.

(** C1 as stated fails: with a clock that advances between the two
    readings, the message is stamped 1000 and the chat's [lastMessageTime]
    is 1001. *)
Lemma sendMessage_lastMessageTime_differs :
  let r := sendMessage (Some "c1") (Some Fixtures.alice) (Some Fixtures.aliceProfile)
             (lit "hello") (Fixtures.hostAt 1000 1) Fixtures.emptyWorld in
  Ai.isToxic (detectToxicity toLowerCase_ascii (lit "hello")) = false /\
  r.1 = Normal (Some neutral) /\
  dom (n_messages (chatNode (db r.2) "c1")) = {[ "k0" ]} /\
  timestamp (messageData (db r.2) "c1" "k0") = Some 1000 /\
  n_lastMessageTime (chatNode (db r.2) "c1") = Some 1001 /\
  n_lastMessageTime (chatNode (db r.2) "c1")
    <> timestamp (messageData (db r.2) "c1" "k0").
Proof.
  vm_compute. split_and!; try reflexivity. discriminate.
Qed.

(* ===================================================================== *)
(** * deleteMessage and the message listener *)
(* ===================================================================== *)

(** The store after [deleteMessage] with its preconditions met: the two
    writes folded into one update of the message. *)
Lemma deleteMessage_db (h : Host) (w : World) (chatId : option string)
  (user : option User.t) (c : string) (u : User.t) (k : string) :
  selected chatId = Some c -> user = Some u ->
  deleteMessage chatId user k h w =
    (Normal tt,
     mkWorld
       (updChat (updMessage (fun m =>
          mkMessageData (senderId m) (senderName m) (text m) (timestamp m)
            (emotion m) (isToxic m) (Some true) (Some (now h (clockReads w)))) k)
          c (db w))
       (S (clockReads w)) (pushes w)
       (log w ++ [Wrote (SetIsDeleted c k true);
                  Wrote (SetDeletedAt c k (now h (clockReads w)))])).
Proof.
  intros Hc Hu. unfold deleteMessage. rewrite Hc, Hu.
  unfold bind, set, Date_now. cbn -[applyWrite].
  unfold applyWrite. rewrite updChat_updChat.
  rewrite <- app_assoc. cbn [app].
  f_equal. f_equal.
  apply updChat_ext. by rewrite updMessage_updMessage.
Qed.

(** C6.  Calling [deleteMessage] twice with the same message id: neither
    call throws; with the preconditions met the message's [isDeleted] is
    [true] after one call and after two, and the store after two calls is
    the store after one call with [deletedAt] overwritten by the second
    call's clock reading; without them both calls leave the store alone. *)
Theorem deleteMessage_twice (h : Host) (w : World) (chatId : option string)
  (user : option User.t) (messageId : string) :
  let once := deleteMessage chatId user messageId h w in
  let twice := deleteMessage chatId user messageId h once.2 in
  once.1 = Normal tt /\ twice.1 = Normal tt /\
  match selected chatId, user with
  | Some c, Some _ =>
      isDeleted (messageData (db once.2) c messageId) = Some true /\
      isDeleted (messageData (db twice.2) c messageId) = Some true /\
      deletedAt (messageData (db twice.2) c messageId)
        = Some (now h (S (clockReads w))) /\
      db twice.2
        = applyWrite (SetDeletedAt c messageId (now h (S (clockReads w)))) (db once.2)
  | _, _ => db once.2 = db w /\ db twice.2 = db w
  end.
Proof.
  destruct (selected chatId) as [c|] eqn:Hc, user as [u|] eqn:Hu;
    try (unfold deleteMessage; rewrite Hc; by cbn).
  cbn zeta.
  rewrite (deleteMessage_db h w chatId (Some u) c u messageId Hc eq_refl).
  cbn [fst snd].
  rewrite (deleteMessage_db h _ chatId (Some u) c u messageId Hc eq_refl).
  cbn [fst snd db clockReads].
  split; [done|]. split; [done|].
  rewrite !messageData_updMessage. cbn [isDeleted deletedAt].
  split; [done|]. split; [done|]. split; [done|].
  unfold applyWrite. rewrite !updChat_updChat.
  apply updChat_ext. rewrite !updMessage_updMessage.
  by apply updMessage_ext.
Qed.

Lemma onMessagesValue_elem (entries : list (string * MessageData)) (m : Message.t) :
  m ∈ onMessagesValue (Some entries) <->
  flagSet (Message.isDeleted m) = false /\
  exists id msg, (id, msg) ∈ entries /\ m = Message.withId id msg.
Proof.
  unfold onMessagesValue. rewrite list_elem_of_filter, list_elem_of_fmap.
  rewrite negb_true_iff. split.
  - intros [Hd ([id msg] & -> & Hin)]. eauto.
  - intros [Hd (id & msg & Hin & ->)]. split; [done|]. by exists (id, msg).
Qed.

(** C8.  The list the message listener publishes holds no message whose
    [isDeleted] is set; every entry of the delivered snapshot whose
    [isDeleted] is not set is in it, with its fields; and once
    [deleteMessage] has run on a message id, nothing published from a
    snapshot of the resulting store carries that id. *)
Theorem onMessagesValue_hides_deleted :
  (forall data m,
      m ∈ onMessagesValue data -> flagSet (Message.isDeleted m) = false) /\
  (forall entries id msg,
      (id, msg) ∈ entries -> flagSet (isDeleted msg) = false ->
      Message.withId id msg ∈ onMessagesValue (Some entries)) /\
  (forall h w chatId user c u k data,
      selected chatId = Some c -> user = Some u ->
      isMessagesSnapshot (db (deleteMessage chatId user k h w).2) c data ->
      forall m, m ∈ onMessagesValue data -> Message.id m <> k).
Proof.
  split_and!.
  - intros [entries|] m Hm; [|by apply elem_of_nil in Hm].
    by apply onMessagesValue_elem in Hm as [Hd _].
  - intros entries id msg Hin Hd. apply onMessagesValue_elem.
    split; [done|]. eauto.
  - intros h w chatId user c u k data Hc Hu Hsnap m Hm.
    destruct data as [entries|]; [|by apply elem_of_nil in Hm].
    apply onMessagesValue_elem in Hm as [Hd (id & msg & Hin & ->)].
    cbn [Message.id Message.withId]. intros ->.
    destruct Hsnap as (_ & _ & _ & Hsub). specialize (Hsub k msg Hin).
    rewrite (deleteMessage_db h w chatId user c u k Hc Hu) in Hsub.
    cbn [snd db] in Hsub. rewrite stored_updMessage in Hsub.
    injection Hsub as <-. by cbn in Hd.
Qed.

(** C8 at a concrete input: Alice sends a happy message, the listener
    publishes it with its tags, she deletes it, and the listener publishes
    nothing for the snapshot of the store after the deletion. *)
Lemma onMessagesValue_hides_deleted_witness :
  let h := Fixtures.hostAt 1000 1 in
  let sent := sendMessage (Some "c1") (Some Fixtures.alice)
                (Some Fixtures.aliceProfile) (lit "what a wonderful day") h
                Fixtures.emptyWorld in
  let before := map_to_list (n_messages (chatNode (db sent.2) "c1")) in
  let deleted := deleteMessage (Some "c1") (Some Fixtures.alice) "k0" h sent.2 in
  let after := map_to_list (n_messages (chatNode (db deleted.2) "c1")) in
  (Message.id <$> onMessagesValue (Some before)) = ["k0"] /\
  (Message.emotion <$> onMessagesValue (Some before)) = [Some happy] /\
  (Message.isToxic <$> onMessagesValue (Some before)) = [Some false] /\
  (forall m, m ∈ onMessagesValue (Some after) -> Message.id m <> "k0") /\
  onMessagesValue (Some after) = [].
Proof.
  destruct onMessagesValue_hides_deleted as (_ & _ & Hgone).
  split_and!; [vm_compute; reflexivity .. | | vm_compute; reflexivity].
  apply (Hgone (Fixtures.hostAt 1000 1)
           (sendMessage (Some "c1") (Some Fixtures.alice)
              (Some Fixtures.aliceProfile) (lit "what a wonderful day")
              (Fixtures.hostAt 1000 1) Fixtures.emptyWorld).2
           (Some "c1") (Some Fixtures.alice) "c1" Fixtures.alice "k0");
    [reflexivity | reflexivity |].
  split_and!.
  - vm_compute. discriminate.
  - vm_compute. apply NoDup_cons. split; [apply not_elem_of_nil | apply NoDup_nil_2].
  - vm_compute. reflexivity.
  - intros id msg Hin. apply elem_of_map_to_list in Hin. exact Hin.
Defined.

(* ===================================================================== *)
(** * createChat *)
(* ===================================================================== *)

Lemma isDirectChatWith_spec (uid participantId : string) (chat : Chat.t) :
  isDirectChatWith uid participantId chat = true <->
  Chat.isGroup chat = false /\
  participantId ∈ Chat.participants chat /\ uid ∈ Chat.participants chat.
Proof.
  unfold isDirectChatWith.
  rewrite !andb_true_iff, negb_true_iff, !includes_spec. tauto.
Qed.

(** C7.  [createChat] for a signed-in user.  If the cached list holds a
    non-group chat whose participants include the caller and the requested
    user, the call returns the id of such a chat of the list (the first one)
    and leaves the world as it was: no write, no key, no clock reading.
    Otherwise it takes a new key, writes the chat record with the two
    participants under it and writes the index entry of the new chat for
    the caller and for the requested user. *)
Theorem createChat_reuses_or_creates (h : Host) (w : World) (u : User.t)
  (cached : list Chat.t) (participantId : string) (participantName : jsstring) :
  let matching chat :=
    Chat.isGroup chat = false /\
    participantId ∈ Chat.participants chat /\
    User.uid u ∈ Chat.participants chat in
  ((exists chat, chat ∈ cached /\ matching chat) ->
   exists existing,
     existing ∈ cached /\ matching existing /\
     List.find (isDirectChatWith (User.uid u) participantId) cached = Some existing /\
     createChat (Some u) cached participantId participantName h w
       = (Normal (Some (Chat.id existing)), w)) /\
  ((forall chat, chat ∈ cached -> ~ matching chat) ->
   let r := createChat (Some u) cached participantId participantName h w in
   let chatId := pushKey h (pushes w) in
   let chat :=
     mkChatData [User.uid u; participantId]
       (<[participantId := participantName]>
          {[ User.uid u := nameOrUser (User.displayName u) ]})
       None None false None (now h (clockReads w)) in
   r.1 = Normal (Some chatId) /\
   log r.2 = log w ++ [ Wrote (SetChat chatId chat);
                        Wrote (SetUserChat (User.uid u) chatId true);
                        Wrote (SetUserChat participantId chatId true) ] /\
   db r.2 = applyWrite (SetUserChat participantId chatId true)
              (applyWrite (SetUserChat (User.uid u) chatId true)
                 (applyWrite (SetChat chatId chat) (db w))) /\
   n_participants (chatNode (db r.2) chatId) = Some [User.uid u; participantId] /\
   n_isGroup (chatNode (db r.2) chatId) = Some false /\
   default ∅ (userChats (db r.2) !! User.uid u) !! chatId = Some true /\
   default ∅ (userChats (db r.2) !! participantId) !! chatId = Some true).
Proof.
  cbn zeta. split.
  - intros (chat & Hin & Hm).
    destruct (List.find (isDirectChatWith (User.uid u) participantId) cached)
      as [existing|] eqn:Hfind.
    + exists existing. apply find_some in Hfind as Hsome.
      destruct Hsome as [Hin' Hp]. apply isDirectChatWith_spec in Hp.
      split; [by apply list_elem_of_In|]. split; [done|]. split; [done|].
      unfold createChat. by rewrite Hfind.
    + exfalso. apply list_elem_of_In in Hin.
      pose proof (find_none _ _ Hfind chat Hin) as Hno.
      apply isDirectChatWith_spec in Hm. congruence.
  - intros Hnone.
    assert (Hfind : List.find (isDirectChatWith (User.uid u) participantId) cached = None).
    { destruct (List.find _ cached) as [existing|] eqn:Hfind; [exfalso|done].
      apply find_some in Hfind as [Hin Hp]. apply isDirectChatWith_spec in Hp.
      apply (Hnone existing); [by apply list_elem_of_In|done]. }
    unfold createChat. rewrite Hfind.
    unfold bind, push, Date_now, set, ret. cbn -[applyWrite].
    split; [done|]. split; [by rewrite <- !app_assoc|]. split; [done|].
    split.
    { unfold applyWrite, chatNode, updChat. cbn [chats]. by rewrite lookup_insert_eq. }
    split.
    { unfold applyWrite, chatNode, updChat. cbn [chats]. by rewrite lookup_insert_eq. }
    unfold applyWrite. cbn [userChats].
    destruct (decide (participantId = User.uid u)) as [->|Hne].
    + rewrite !lookup_insert_eq. simpl. by rewrite !lookup_insert_eq.
    + rewrite lookup_insert_eq.
      rewrite (lookup_insert_ne _ participantId (User.uid u)) by done.
      rewrite lookup_insert_eq. simpl. by rewrite !lookup_insert_eq.
Qed.

(** C7 at concrete inputs: a cache that holds the direct chat of Alice and
    Bob behind a group chat of theirs, and an empty cache. *)
Lemma createChat_reuses_or_creates_witness :
  let direct := Chat.mk "c7" ["bob"; "alice"] ∅ None None false None 5 in
  let group := Chat.mk "g1" ["alice"; "bob"; "carol"] ∅ None None true
                 (Some (lit "Trio")) 4 in
  let h := Fixtures.hostAt 1000 1 in
  (exists existing,
     existing ∈ [group; direct] /\
     createChat (Some Fixtures.alice) [group; direct] "bob" (lit "Bob") h
       Fixtures.emptyWorld
     = (Normal (Some (Chat.id existing)), Fixtures.emptyWorld)) /\
  (createChat (Some Fixtures.alice) [] "bob" (lit "Bob") h Fixtures.emptyWorld).1
    = Normal (Some "k0").
Proof.
  cbn zeta. split.
  - destruct (createChat_reuses_or_creates (Fixtures.hostAt 1000 1)
                Fixtures.emptyWorld Fixtures.alice
                [Chat.mk "g1" ["alice"; "bob"; "carol"] ∅ None None true
                   (Some (lit "Trio")) 4;
                 Chat.mk "c7" ["bob"; "alice"] ∅ None None false None 5]
                "bob" (lit "Bob")) as [Hreuse _].
    destruct Hreuse as (existing & Hin & _ & _ & Hrun).
    + exists (Chat.mk "c7" ["bob"; "alice"] ∅ None None false None 5).
      split; [apply list_elem_of_further, list_elem_of_here|].
      split; [reflexivity|].
      split; [apply list_elem_of_here|].
      apply list_elem_of_further, list_elem_of_here.
    + exists existing. split; [exact Hin | exact Hrun].
  - destruct (createChat_reuses_or_creates (Fixtures.hostAt 1000 1)
                Fixtures.emptyWorld Fixtures.alice [] "bob" (lit "Bob"))
      as [_ Hcreate].
    destruct Hcreate as (Hr & _).
    + intros chat Hin. by apply elem_of_nil in Hin.
    + exact Hr.
Defined.

(* ===================================================================== *)
(** * The chat listener: sorting by last activity *)
(* ===================================================================== *)

Section SortFacts.

(** Comparators of the form [(a, b) => key(b) - key(a)]. *)
Context {A : Type} (key : A -> Z) (compareFn : A -> A -> Z).
Hypothesis compareFn_key : forall a b, compareFn a b = key b - key a.

Lemma insertSorted_perm (x : A) (l : list A) :
  Permutation (insertSorted compareFn x l) (x :: l).
Proof.
  induction l as [|y l IH]; cbn [insertSorted]; [done|].
  destruct (0 <? compareFn x y); [|done].
  rewrite IH. apply perm_swap.
Qed.

Lemma insertSorted_sorted (x : A) (l : list A) :
  StronglySorted (fun a b => key b <= key a) l ->
  StronglySorted (fun a b => key b <= key a) (insertSorted compareFn x l).
Proof.
  induction 1 as [|y l Hl IH Hy]; cbn [insertSorted].
  - by repeat constructor.
  - rewrite compareFn_key. destruct (0 <? key y - key x) eqn:Hcmp.
    + apply Z.ltb_lt in Hcmp. constructor; [done|].
      rewrite insertSorted_perm. constructor; [lia | done].
    + apply Z.ltb_ge in Hcmp. constructor; [by constructor|].
      constructor; [lia|].
      eapply Forall_impl; [exact Hy|]. cbn beta. intros z Hz. lia.
Qed.

Lemma sort_perm (l : list A) : Permutation (sort compareFn l) l.
Proof.
  induction l as [|x l IH]; cbn [sort]; [done|].
  by rewrite insertSorted_perm, IH.
Qed.

Lemma sort_sorted (l : list A) :
  StronglySorted (fun a b => key b <= key a) (sort compareFn l).
Proof.
  induction l as [|x l IH]; cbn [sort]; [constructor|].
  by apply insertSorted_sorted.
Qed.

End SortFacts.

Lemma StronglySorted_lookup {A : Type} (R : A -> A -> Prop) (l : list A)
  (i j : nat) (a b : A) :
  StronglySorted R l -> (i < j)%nat -> l !! i = Some a -> l !! j = Some b -> R a b.
Proof.
  intros Hs. revert i j. induction Hs as [|x l Hl IH Hx]; intros i j Hij Hi Hj.
  - by rewrite lookup_nil in Hi.
  - destruct j as [|j]; [lia|]. destruct i as [|i].
    + injection Hi as ->. rewrite Forall_forall in Hx. apply Hx.
      eapply list_elem_of_lookup_2. exact Hj.
    + apply (IH i j); [lia | exact Hi | exact Hj].
Qed.

(** C3.  The list the chat listener publishes is the list of the chats that
    resolved, reordered so that [lastMessageTime || 0] never increases along
    it; hence nothing that follows a chat without [lastMessageTime] has a
    positive [lastMessageTime]. *)
Theorem onUserChatsValue_sorted (data : option (list string))
  (readOnce : string -> option ChatData) :
  let published := onUserChatsValue data readOnce in
  let time chat := orZero (Chat.lastMessageTime chat) in
  StronglySorted (fun a b => time b <= time a) published /\
  (forall i j a b,
      (i < j)%nat -> published !! i = Some a -> published !! j = Some b ->
      time b <= time a) /\
  (forall i j a b,
      (i < j)%nat -> published !! i = Some a -> published !! j = Some b ->
      Chat.lastMessageTime a = None ->
      forall t, Chat.lastMessageTime b = Some t -> t <= 0) /\
  Permutation published
    (omap (fun chatId => Chat.withId chatId <$> readOnce chatId) (default [] data)).
Proof.
  cbn zeta.
  assert (Hsorted : StronglySorted
            (fun a b => orZero (Chat.lastMessageTime b) <= orZero (Chat.lastMessageTime a))
            (onUserChatsValue data readOnce)).
  { destruct data as [chatIds|]; cbn [onUserChatsValue]; [|constructor].
    by apply (sort_sorted (fun chat => orZero (Chat.lastMessageTime chat))). }
  split; [exact Hsorted|]. split; [|split].
  - intros i j a b Hij Hi Hj.
    exact (StronglySorted_lookup _ _ i j a b Hsorted Hij Hi Hj).
  - intros i j a b Hij Hi Hj Hnone t Ht.
    pose proof (StronglySorted_lookup _ _ i j a b Hsorted Hij Hi Hj) as Hle.
    cbn beta in Hle. by rewrite Hnone, Ht in Hle.
  - destruct data as [chatIds|]; cbn [onUserChatsValue]; [|done].
    change (default [] (Some chatIds)) with chatIds.
    rewrite sort_perm.
    clear Hsorted. induction chatIds as [|c l IH]; [done|].
    cbn. destruct (readOnce c); cbn; by rewrite ?IH.
Qed.

(* ===================================================================== *)
(** * analyzeEmotion *)
(* ===================================================================== *)

(** The loop returns the emotion of the first entry that is not [neutral]
    and has a matching pattern, and [neutral] when there is none. *)
Lemma analyzeEmotion_from_first (entries : list (Emotion * list RegExp))
  (text : jsstring) :
  let hit entry :=
    negb (bool_decide (entry.1 = neutral)) && anyPatternMatches entry.2 text in
  analyzeEmotion_from entries text = default neutral (fst <$> List.find hit entries).
Proof.
  cbn zeta. induction entries as [|[emotion patterns] rest IH];
    cbn [analyzeEmotion_from List.find fst snd]; [done|].
  destruct (decide (emotion = neutral)) as [->|Hne].
  - rewrite bool_decide_eq_true_2 by done. exact IH.
  - rewrite bool_decide_eq_false_2 by done. cbn [negb andb].
    by destruct (anyPatternMatches patterns text).
Qed.

(** C9.  [analyzeEmotion] is a function of the text into the six tags (no
    pattern carries the [g] or [y] flag, so [test] keeps no state between
    calls).  It returns the first of happy, sad, angry, stressed, anxious
    that has a matching pattern, and [neutral] exactly when none has; so a
    text that matches sad and anxious, and not happy before them, is tagged
    sad. *)
Theorem analyzeEmotion_first_match (text : jsstring) :
  let m emotion := matches emotion text = true in
  (analyzeEmotion text = happy <-> m happy) /\
  (analyzeEmotion text = sad <-> ~ m happy /\ m sad) /\
  (analyzeEmotion text = angry <-> ~ m happy /\ ~ m sad /\ m angry) /\
  (analyzeEmotion text = stressed <->
     ~ m happy /\ ~ m sad /\ ~ m angry /\ m stressed) /\
  (analyzeEmotion text = anxious <->
     ~ m happy /\ ~ m sad /\ ~ m angry /\ ~ m stressed /\ m anxious) /\
  (analyzeEmotion text = neutral <->
     ~ m happy /\ ~ m sad /\ ~ m angry /\ ~ m stressed /\ ~ m anxious) /\
  (m sad -> m anxious -> ~ m happy -> analyzeEmotion text = sad) /\
  map fst emotionPatterns = [happy; sad; angry; stressed; anxious; neutral] /\
  matches neutral text = false.
Proof.
  cbn zeta. unfold analyzeEmotion. rewrite analyzeEmotion_from_first.
  unfold matches, patternsOf, emotionPatterns.
  cbn [List.find fst snd bool_decide decide_rel Emotion_eq_dec negb andb
       fmap option_fmap option_map default from_option map].
  cbv [bool_decide decide_rel Emotion_eq_dec Emotion_rec Emotion_rect
       sumbool_rec sumbool_rect negb andb id].
  cbn [fmap option_fmap option_map default from_option fst snd].
  change (anyPatternMatches [] text) with false.
  repeat match goal with
         | |- context [anyPatternMatches ?ps text] =>
             let b := fresh "b" in
             generalize (anyPatternMatches ps text); intros b
         end.
  destruct b, b0, b1, b2, b3; cbn; intuition congruence.
Qed.

(* ===================================================================== *)
(** * The wellbeing provider *)
(* ===================================================================== *)

Lemma thirty_minutes (a b : Z) :
  Qle_bool 30 (minutesBetween a b) = (1800000 <=? a - b).
Proof.
  unfold Qle_bool, minutesBetween. cbn [Qnum Qden].
  destruct (Z.leb_spec 1800000 (a - b)); [apply Z.leb_le | apply Z.leb_gt]; lia.
Qed.

(** What one run of the break check does, by the three clock readings it
    takes. *)
Lemma breakCheck_run (h : Host) (w : World) (sessionStart : Z) (st : State) :
  breakCheck sessionStart st h w =
    if (1800000 <=? now h (clockReads w) - sessionStart) &&
       (1800000 <=? now h (S (clockReads w)) - lastBreakReminder st)
    then (Normal (mkState (sessionStartTime st) (todayUsage st) (dailyLimit st)
                    true (now h (S (S (clockReads w))))),
          mkWorld (db w) (S (S (S (clockReads w)))) (pushes w)
                  (log w ++ [Toasted BreakToast]))
    else (Normal st, mkWorld (db w) (S (S (clockReads w))) (pushes w) (log w)).
Proof.
  unfold breakCheck, bind, Date_now, toast, emit, ret.
  cbn [clockReads db pushes log]. rewrite !thirty_minutes.
  by destruct (_ && _).
Qed.

(** C5.  A run of the periodic break check at time [t] surfaces the
    reminder (one toast, [showBreakReminder] set) exactly when [t] is at
    least 30 minutes after the session start and at least 30 minutes after
    [lastBreakReminder], and then sets [lastBreakReminder] to [t]; otherwise
    it changes nothing.  So for a session started at [t0] with no reminder
    yet, the check is installed, its run at [t0] + 30 min surfaces the
    reminder once, its run at [t0] + 45 min does not, and its run at
    [t0] + 61 min surfaces it again. *)
Theorem breakCheck_every_thirty_minutes (h : Host) (w : World) (t0 : Z)
  (st0 : State) :
  0 < t0 ->
  sessionStartTime st0 = Some t0 ->
  lastBreakReminder st0 = 0 ->
  readsAt h (clockReads w) 3 (t0 + 30 * 60000) ->
  readsAt h (clockReads w + 3) 2 (t0 + 45 * 60000) ->
  readsAt h (clockReads w + 5) 3 (t0 + 61 * 60000) ->
  (forall h' w' sessionStart st t,
      readsAt h' (clockReads w') 3 t ->
      let r := breakCheck sessionStart st h' w' in
      let due := 30 * 60000 <= t - sessionStart /\
                 30 * 60000 <= t - lastBreakReminder st in
      (log r.2 = log w' ++ [Toasted BreakToast] <-> due) /\
      (due ->
       r.1 = Normal (mkState (sessionStartTime st) (todayUsage st)
                       (dailyLimit st) true t)) /\
      (~ due -> r.1 = Normal st /\ log r.2 = log w')) /\
  breakCheckInstalled true st0 = true /\
  exists st1 w1 st2 w2 st3 w3,
    breakCheck t0 st0 h w = (Normal st1, w1) /\
    log w1 = log w ++ [Toasted BreakToast] /\
    showBreakReminder st1 = true /\
    lastBreakReminder st1 = t0 + 30 * 60000 /\
    breakCheck t0 st1 h w1 = (Normal st2, w2) /\
    st2 = st1 /\ log w2 = log w1 /\
    breakCheck t0 st2 h w2 = (Normal st3, w3) /\
    log w3 = log w2 ++ [Toasted BreakToast] /\
    showBreakReminder st3 = true /\
    lastBreakReminder st3 = t0 + 61 * 60000.
Proof.
  intros Ht0 Hstart Hlast H30 H45 H61. split_and!.
  - intros h' w' sessionStart st t Ht. cbn zeta.
    rewrite breakCheck_run.
    pose proof (Ht 0%nat ltac:(lia)) as E0.
    pose proof (Ht 1%nat ltac:(lia)) as E1.
    pose proof (Ht 2%nat ltac:(lia)) as E2.
    rewrite Nat.add_0_r in E0.
    replace (clockReads w' + 1)%nat with (S (clockReads w')) in E1 by lia.
    replace (clockReads w' + 2)%nat with (S (S (clockReads w'))) in E2 by lia.
    rewrite E0, E1, E2.
    destruct (Z.leb_spec 1800000 (t - sessionStart));
      destruct (Z.leb_spec 1800000 (t - lastBreakReminder st));
      cbn [andb fst snd log]; split_and!; try done; try lia;
      try (split; [intros Hlog | lia];
           apply (f_equal length) in Hlog; rewrite length_app in Hlog;
           cbn in Hlog; lia);
      intros Hdue; lia.
  - unfold breakCheckInstalled. rewrite Hstart.
    rewrite bool_decide_eq_false_2 by lia. done.
  - pose proof (H30 0%nat ltac:(lia)) as A0.
    pose proof (H30 1%nat ltac:(lia)) as A1.
    pose proof (H30 2%nat ltac:(lia)) as A2.
    pose proof (H45 0%nat ltac:(lia)) as B0.
    pose proof (H45 1%nat ltac:(lia)) as B1.
    pose proof (H61 0%nat ltac:(lia)) as C0.
    pose proof (H61 1%nat ltac:(lia)) as C1.
    pose proof (H61 2%nat ltac:(lia)) as C2.
    set (r := clockReads w) in *.
    replace (r + 0)%nat with r in A0 by lia.
    replace (r + 1)%nat with (S r) in A1 by lia.
    replace (r + 2)%nat with (S (S r)) in A2 by lia.
    replace (r + 3 + 0)%nat with (S (S (S r))) in B0 by lia.
    replace (r + 3 + 1)%nat with (S (S (S (S r)))) in B1 by lia.
    replace (r + 5 + 0)%nat with (S (S (S (S (S r))))) in C0 by lia.
    replace (r + 5 + 1)%nat with (S (S (S (S (S (S r)))))) in C1 by lia.
    replace (r + 5 + 2)%nat with (S (S (S (S (S (S (S r))))))) in C2 by lia.
    eexists _, _, _, _, _, _.
    split.
    { rewrite breakCheck_run. fold r. rewrite A0, A1, A2, Hlast.
      rewrite (proj2 (Z.leb_le _ _)) by lia.
      rewrite (proj2 (Z.leb_le _ _)) by lia. reflexivity. }
    cbn [log showBreakReminder lastBreakReminder].
    split; [done|]. split; [done|]. split; [done|].
    split.
    { rewrite breakCheck_run. cbn [clockReads lastBreakReminder].
      rewrite B0, B1.
      rewrite (proj2 (Z.leb_gt 1800000 (t0 + 45 * 60000 - (t0 + 30 * 60000)))) by lia.
      rewrite andb_false_r. reflexivity. }
    cbn [log]. split; [done|]. split; [done|].
    split.
    { rewrite breakCheck_run. cbn [clockReads lastBreakReminder].
      rewrite C0, C1, C2.
      rewrite (proj2 (Z.leb_le _ _)) by lia.
      rewrite (proj2 (Z.leb_le _ _)) by lia. reflexivity. }
    cbn [log showBreakReminder lastBreakReminder]. done.
Qed.

(** C5 at a concrete input: a session started at clock value 1000000 with
    the first check run 30 minutes later. *)
Lemma breakCheck_every_thirty_minutes_witness :
  let h := Fixtures.hostShowing (1000000 + 30 * 60000) (1000000 + 45 * 60000)
             (1000000 + 61 * 60000) in
  let st0 := mkState (Some 1000000) 0 120 false 0 in
  exists st1 w1 st2 w2 st3 w3,
    breakCheck 1000000 st0 h Fixtures.emptyWorld = (Normal st1, w1) /\
    breakCheck 1000000 st1 h w1 = (Normal st2, w2) /\
    breakCheck 1000000 st2 h w2 = (Normal st3, w3) /\
    log w1 = [Toasted BreakToast] /\
    log w2 = [Toasted BreakToast] /\
    log w3 = [Toasted BreakToast; Toasted BreakToast].
Proof.
  cbn zeta.
  destruct (breakCheck_every_thirty_minutes
              (Fixtures.hostShowing (1000000 + 30 * 60000) (1000000 + 45 * 60000)
                 (1000000 + 61 * 60000))
              Fixtures.emptyWorld 1000000 (mkState (Some 1000000) 0 120 false 0))
    as (_ & _ & st1 & w1 & st2 & w2 & st3 & w3 & R1 & L1 & _ & _ & R2 & _ & L2
        & R3 & L3 & _).
  - lia.
  - reflexivity.
  - reflexivity.
  - intros i Hi. destruct i as [|[|[|i]]]; [reflexivity .. | lia].
  - intros i Hi. destruct i as [|[|i]]; [reflexivity .. | lia].
  - intros i Hi. destruct i as [|[|[|i]]]; [reflexivity .. | lia].
  - exists st1, w1, st2, w2, st3, w3.
    split; [exact R1|]. split; [exact R2|]. split; [exact R3|].
    split; [exact L1|].
    split; [rewrite L2; exact L1|].
    rewrite L3, L2, L1. reflexivity.
Defined.

(** One commit of the daily-limit effect after an earlier commit, with the
    backend configured and the same [toast] function: the toast is raised
    exactly when the limit is reached now and was not at the earlier
    commit. *)
Lemma commitLimit_after (h : Host) (w : World) (toastRef : nat) (prev st : State) :
  commitLimit true toastRef (Some (limitDeps true toastRef prev)) st h w =
    (Normal (limitDeps true toastRef st),
     mkWorld (db w) (clockReads w) (pushes w)
       (log w ++ if isLimitReached st && negb (isLimitReached prev)
                 then [Toasted DailyLimitToast] else [])).
Proof.
  unfold commitLimit, useEffect, limitEffect, limitDeps, bind, toast, emit, ret.
  destruct w as [d r p l]. cbn [db clockReads pushes log].
  destruct (isLimitReached st), (isLimitReached prev);
    case_decide; try congruence; cbn [andb negb]; by rewrite ?app_nil_r.
Qed.

(** The first commit: the toast is raised when the limit is reached and the
    backend is configured. *)
Lemma commitLimit_first (h : Host) (w : World) (isConfigured : bool)
  (toastRef : nat) (st : State) :
  commitLimit isConfigured toastRef None st h w =
    (Normal (limitDeps isConfigured toastRef st),
     mkWorld (db w) (clockReads w) (pushes w)
       (log w ++ if isLimitReached st && isConfigured
                 then [Toasted DailyLimitToast] else [])).
Proof.
  unfold commitLimit, useEffect, limitEffect, limitDeps, bind, toast, emit, ret.
  destruct w as [d r p l]. cbn [db clockReads pushes log].
  case_decide; [done|].
  destruct (isLimitReached st && isConfigured); by rewrite ?app_nil_r.
Qed.

(** A usage tick and the commit it causes. *)
Lemma tickAndCommit_run (h : Host) (w : World) (uid : string) (toastRef : nat)
  (prev st : State) :
  let st' := mkState (sessionStartTime st) (todayUsage st + 1) (dailyLimit st)
               (showBreakReminder st) (lastBreakReminder st) in
  tickAndCommit uid true toastRef (limitDeps true toastRef prev) st h w =
    (Normal (limitDeps true toastRef st', st'),
     mkWorld (applyWrite (SetTodayUsage uid (todayUsage st + 1)) (db w))
       (clockReads w) (pushes w)
       (log w ++ Wrote (SetTodayUsage uid (todayUsage st + 1)) ::
          if isLimitReached st' && negb (isLimitReached prev)
          then [Toasted DailyLimitToast] else [])).
Proof.
  cbn zeta. unfold tickAndCommit, usageTick, bind, set, ret.
  cbn -[commitLimit applyWrite limitDeps].
  rewrite (commitLimit_after h _ toastRef prev).
  cbn -[applyWrite limitDeps isLimitReached].
  by rewrite <- app_assoc.
Qed.

Lemma countToasts_app (t : Toast) (l1 l2 : list Event) :
  countToasts t (l1 ++ l2) = (countToasts t l1 + countToasts t l2)%nat.
Proof. unfold countToasts. by rewrite List.filter_app, length_app. Qed.

(** Ticks from a usage at or above the limit raise no daily-limit toast,
    however many there are. *)
Lemma ticksAndCommits_above (n : nat) (h : Host) (uid : string) (toastRef : nat) :
  forall (w : World) (st : State),
    dailyLimit st <= todayUsage st ->
    exists d st' w',
      ticksAndCommits n uid true toastRef (limitDeps true toastRef st) st h w
        = (Normal (d, st'), w') /\
      todayUsage st' = todayUsage st + Z.of_nat n /\
      dailyLimit st' = dailyLimit st /\
      countToasts DailyLimitToast (log w') = countToasts DailyLimitToast (log w).
Proof.
  induction n as [|n IH]; intros w st Hreached.
  - exists (limitDeps true toastRef st), st, w. cbn. split_and!; try done. lia.
  - cbn [ticksAndCommits]. unfold bind at 1.
    rewrite (tickAndCommit_run h w uid toastRef st st). cbn zeta. cbn [fst snd].
    set (st1 := mkState _ (todayUsage st + 1) _ _ _).
    assert (H1 : dailyLimit st1 <= todayUsage st1) by (cbn; lia).
    assert (Hst : isLimitReached st = true) by by apply Z.leb_le.
    rewrite Hst, andb_false_r.
    destruct (IH (mkWorld (applyWrite (SetTodayUsage uid (todayUsage st + 1)) (db w))
                    (clockReads w) (pushes w)
                    (log w ++ [Wrote (SetTodayUsage uid (todayUsage st + 1))]))
                 st1 H1) as (d & st' & w' & Hrun & Hu & Hl & Hc).
    exists d, st', w'. split; [exact Hrun|].
    split; [rewrite Hu; cbn; lia|]. split; [by rewrite Hl|].
    rewrite Hc. cbn [log]. rewrite countToasts_app. cbn. lia.
Qed.

(** C4.  With the backend configured and the [toast] function unchanged
    between renders, a commit raises the daily-limit toast, once, exactly
    when today's usage is at or above the limit and was below it at the
    previous commit; so it is not raised again while usage stays at or above
    the limit, and is raised again after usage has dropped below the limit
    and reached it anew.  In particular, from a usage one minute short of
    the limit (119 of 120), the first usage tick raises the toast once and
    the second tick raises none, nor does any later tick; and after
    [resetDailyUsage] the limit counts as not reached, so the next crossing
    raises the toast again. *)
Theorem dailyLimit_toast_on_crossing :
  (forall h w toastRef prev st,
      let r := commitLimit true toastRef (Some (limitDeps true toastRef prev)) st h w in
      (log r.2 = log w ++ [Toasted DailyLimitToast] <->
         dailyLimit st <= todayUsage st /\ todayUsage prev < dailyLimit prev) /\
      (~ (dailyLimit st <= todayUsage st /\ todayUsage prev < dailyLimit prev) ->
         log r.2 = log w)) /\
  (forall h w uid toastRef st0,
      todayUsage st0 + 1 = dailyLimit st0 ->
      exists d1 st1 w1 d2 st2 w2,
        tickAndCommit uid true toastRef (limitDeps true toastRef st0) st0 h w
          = (Normal (d1, st1), w1) /\
        todayUsage st1 = dailyLimit st0 /\
        log w1 = log w ++ [Wrote (SetTodayUsage uid (todayUsage st0 + 1));
                           Toasted DailyLimitToast] /\
        tickAndCommit uid true toastRef d1 st1 h w1 = (Normal (d2, st2), w2) /\
        todayUsage st2 = dailyLimit st0 + 1 /\
        log w2 = log w1 ++ [Wrote (SetTodayUsage uid (todayUsage st0 + 2))]) /\
  (forall n h w uid toastRef st0,
      todayUsage st0 + 1 = dailyLimit st0 ->
      exists d st' w',
        ticksAndCommits (S n) uid true toastRef (limitDeps true toastRef st0) st0 h w
          = (Normal (d, st'), w') /\
        countToasts DailyLimitToast (log w')
          = S (countToasts DailyLimitToast (log w))) /\
  (forall h w uid toastRef st,
      dailyLimit st <= todayUsage st -> 0 < dailyLimit st ->
      exists st' w' d w'',
        resetDailyUsage (Some (User.mk uid None)) true st h w = (Normal st', w') /\
        commitLimit true toastRef (Some (limitDeps true toastRef st)) st' h w'
          = (Normal d, w'') /\
        d = (false, true, toastRef) /\
        log w'' = log w ++ [Wrote (SetTodayUsage uid 0)]).
Proof.
  split_and!.
  - intros h w toastRef prev st. cbn zeta. rewrite commitLimit_after.
    cbn [snd log]. unfold isLimitReached.
    destruct (Z.leb_spec (dailyLimit st) (todayUsage st));
      destruct (Z.leb_spec (dailyLimit prev) (todayUsage prev));
      cbn [andb negb]; rewrite ?app_nil_r; split; try done; try lia;
      try (split; [intros Hlog | lia];
           apply (f_equal length) in Hlog; rewrite length_app in Hlog;
           cbn in Hlog; lia);
      intros Hn; lia.
  - intros h w uid toastRef st0 Hshort.
    set (st1 := mkState (sessionStartTime st0) (todayUsage st0 + 1) (dailyLimit st0)
                  (showBreakReminder st0) (lastBreakReminder st0)).
    pose proof (tickAndCommit_run h w uid toastRef st0 st0) as R1.
    cbn zeta in R1. fold st1 in R1.
    assert (Hst1 : isLimitReached st1 = true) by (apply Z.leb_le; cbn; lia).
    assert (Hst0 : isLimitReached st0 = false) by (apply Z.leb_gt; lia).
    rewrite Hst1, Hst0 in R1. cbn [andb negb] in R1.
    eexists _, _, _. rewrite R1.
    pose proof (tickAndCommit_run h
                  (mkWorld (applyWrite (SetTodayUsage uid (todayUsage st0 + 1)) (db w))
                     (clockReads w) (pushes w)
                     (log w ++ [Wrote (SetTodayUsage uid (todayUsage st0 + 1));
                                Toasted DailyLimitToast]))
                  uid toastRef st1 st1) as R2.
    cbn zeta in R2. rewrite Hst1 in R2. rewrite andb_false_r in R2.
    eexists _, _, _. rewrite R2.
    subst st1.
    split; [reflexivity|]. split; [cbn [todayUsage]; lia|].
    split; [reflexivity|]. split; [reflexivity|].
    split; [cbn [todayUsage]; lia|].
    cbn [log todayUsage]. do 4 f_equal. lia.
  - intros n h w uid toastRef st0 Hshort.
    cbn [ticksAndCommits]. unfold bind at 1.
    rewrite (tickAndCommit_run h w uid toastRef st0 st0). cbn zeta. cbn [fst snd].
    set (st1 := mkState _ (todayUsage st0 + 1) _ _ _).
    assert (Hst1 : isLimitReached st1 = true) by (apply Z.leb_le; cbn; lia).
    assert (Hst0 : isLimitReached st0 = false) by (apply Z.leb_gt; lia).
    rewrite Hst1, Hst0. cbn [andb negb].
    destruct (ticksAndCommits_above n h uid toastRef
                (mkWorld (applyWrite (SetTodayUsage uid (todayUsage st0 + 1)) (db w))
                   (clockReads w) (pushes w)
                   (log w ++ [Wrote (SetTodayUsage uid (todayUsage st0 + 1));
                              Toasted DailyLimitToast]))
                st1) as (d & st' & w' & Hrun & _ & _ & Hc);
      [by apply Z.leb_le|].
    exists d, st', w'. split; [exact Hrun|].
    rewrite Hc. cbn [log]. rewrite countToasts_app. cbn. lia.
  - intros h w uid toastRef st Hreached Hpos.
    eexists _, _, _, _.
    unfold resetDailyUsage, bind, set, ret. cbn -[commitLimit applyWrite limitDeps].
    split; [reflexivity|].
    rewrite (commitLimit_after h _ toastRef st).
    unfold isLimitReached, limitDeps, isLimitReached. cbn [todayUsage dailyLimit log].
    rewrite (proj2 (Z.leb_gt (dailyLimit st) 0)) by lia.
    cbn [andb]. rewrite app_nil_r. done.
Qed.

(** C4 at a concrete input: the daily-limit scenario, usage 119 of 120. *)
Lemma dailyLimit_toast_on_crossing_witness :
  let st0 := loadPreferences (Some (UserProfile.mk (Some (lit "Alice")) 120 119))
               initial in
  let h := Fixtures.hostAt 1000 1 in
  exists d1 st1 w1 d2 st2 w2,
    tickAndCommit "alice" true 0 (limitDeps true 0 st0) st0 h Fixtures.emptyWorld
      = (Normal (d1, st1), w1) /\
    tickAndCommit "alice" true 0 d1 st1 h w1 = (Normal (d2, st2), w2) /\
    log w1 = [Wrote (SetTodayUsage "alice" 120); Toasted DailyLimitToast] /\
    log w2 = [Wrote (SetTodayUsage "alice" 120); Toasted DailyLimitToast;
              Wrote (SetTodayUsage "alice" 121)].
Proof.
  cbn zeta.
  destruct dailyLimit_toast_on_crossing as (_ & Hscenario & _).
  destruct (Hscenario (Fixtures.hostAt 1000 1) Fixtures.emptyWorld "alice" 0%nat
              (loadPreferences (Some (UserProfile.mk (Some (lit "Alice")) 120 119))
                 initial))
    as (d1 & st1 & w1 & d2 & st2 & w2 & R1 & _ & L1 & R2 & _ & L2);
    [reflexivity|].
  exists d1, st1, w1, d2, st2, w2.
  split; [exact R1|]. split; [exact R2|]. split; [exact L1|].
  rewrite L2, L1. reflexivity.
Defined.

(** C9 at a concrete input. *)
Lemma analyzeEmotion_first_match_witness :
  analyzeEmotion (lit "I am sad and worried") = sad.
Proof.
  destruct (analyzeEmotion_first_match (lit "I am sad and worried"))
    as (_ & _ & _ & _ & _ & _ & Hsad & _).
  apply Hsad; vm_compute; [reflexivity | reflexivity | discriminate].
Defined.

(* ===================================================================== *)
(** * The embedding on sample inputs *)
(* ===================================================================== *)

Example trim_sample :
  trim (lit "  hi there ") = lit "hi there" /\ trim (lit "   ") = [].
Proof. split; reflexivity. Qed.

Example analyzeEmotion_samples :
  analyzeEmotion (lit "I am so Happy today") = happy /\
  analyzeEmotion (lit "HAPPY!") = happy /\
  analyzeEmotion (lit "so-happy") = happy /\
  analyzeEmotion (lit "happyness") = neutral /\
  analyzeEmotion (lit "unhappy") = neutral /\
  analyzeEmotion (lit "hello") = neutral /\
  analyzeEmotion (lit "I can't cope with this") = stressed /\
  analyzeEmotion (lit "I hate being afraid") = angry.
Proof. vm_compute. by split_and!. Qed.

(** The character classes are matched code unit by code unit: U+2019, the
    typographic apostrophe, is in the class listed under happy. *)
Example analyzeEmotion_class_sample :
  analyzeEmotion (lit "it" ++ [0x2019%N] ++ lit "s raining") = happy /\
  analyzeEmotion (lit "it's raining") = neutral.
Proof. vm_compute. by split_and!. Qed.

Example detectToxicity_samples :
  Ai.isToxic (detectToxicity toLowerCase_ascii (lit "you are an idiot")) = true /\
  Ai.isToxic (detectToxicity toLowerCase_ascii (lit "hello")) = false /\
  Ai.isToxic (detectToxicity toLowerCase_ascii (lit "the class assignment")) = false /\
  Ai.isToxic (detectToxicity toLowerCase_ascii (lit "CyberBullying")) = true.
Proof. vm_compute. by split_and!. Qed.

Example onUserChatsValue_sample :
  let chat t := Some (mkChatData ["alice"; "bob"] ∅ None t false None 1) in
  let readOnce chatId :=
    if decide (chatId = "a") then chat (Some 50)
    else if decide (chatId = "b") then chat None
    else if decide (chatId = "c") then chat (Some 70)
    else None in
  Chat.id <$> onUserChatsValue (Some ["a"; "b"; "gone"; "c"]) readOnce
  = ["c"; "a"; "b"].
Proof. vm_compute. reflexivity. Qed.

(** The direct-chat scenario: Alice starts a chat with Bob and sends
    "hello". *)
Example direct_chat_scenario :
  let h := Fixtures.hostAt 1000 1 in
  let created := createChat (Some Fixtures.alice) [] "bob" (lit "Bob") h
                   Fixtures.emptyWorld in
  let sent := sendMessage (Some "k0") (Some Fixtures.alice)
                (Some Fixtures.aliceProfile) (lit "hello") h created.2 in
  created.1 = Normal (Some "k0") /\
  n_participants (chatNode (db created.2) "k0") = Some ["alice"; "bob"] /\
  sent.1 = Normal (Some neutral) /\
  text (messageData (db sent.2) "k0" "k1") = Some (lit "hello") /\
  n_lastMessage (chatNode (db sent.2) "k0") = Some (lit "hello").
Proof. vm_compute. by split_and!. Qed.

(* ===================================================================== *)
(** * More on sendMessage and the typing indicator *)
(* ===================================================================== *)

(** The world after a send that goes through. *)
Lemma sendMessage_run (h : Host) (w : World) (chatId : option string)
  (user : option User.t) (userProfile : option UserProfile.t) (text : jsstring)
  (c : string) (u : User.t) (p : UserProfile.t) :
  selected chatId = Some c -> user = Some u -> userProfile = Some p ->
  trim text <> [] ->
  Ai.isToxic (detectToxicity (toLowerCase h) text) = false ->
  let k := pushKey h (pushes w) in
  let message :=
    mkMessageData (Some (User.uid u))
      (Some (nameOrUser (UserProfile.displayName p)))
      (Some (trim text)) (Some (now h (clockReads w)))
      (Some (analyzeEmotion text)) (Some false) None None in
  sendMessage chatId user userProfile text h w =
    (Normal (Some (analyzeEmotion text)),
     mkWorld
       (applyWrite (SetTyping c (User.uid u) false)
          (applyWrite (SetLastMessageTime c (now h (S (clockReads w))))
             (applyWrite (SetLastMessage c (substring0 50 (trim text)))
                (applyWrite (SetMessage c k message) (db w)))))
       (S (S (clockReads w))) (S (pushes w))
       (log w ++
          [ CalledDetectToxicity text; CalledAnalyzeEmotion text;
            Wrote (SetMessage c k message);
            Wrote (SetLastMessage c (substring0 50 (trim text)));
            Wrote (SetLastMessageTime c (now h (S (clockReads w))));
            Wrote (SetTyping c (User.uid u) false) ])).
Proof.
  intros Hc Hu Hp Htrim Htox. unfold sendMessage, setTypingStatus.
  rewrite Hc, Hu, Hp.
  assert (Htruthy : truthy (trim text) = true) by by destruct (trim text).
  rewrite Htruthy.
  unfold callDetectToxicity, callAnalyzeEmotion, bind, emit, ret, push,
    Date_now, set.
  cbn -[trim analyzeEmotion detectToxicity applyWrite substring0].
  rewrite Htox.
  cbn -[trim analyzeEmotion detectToxicity applyWrite substring0].
  by rewrite <- !app_assoc.
Qed.

Lemma onTypingValue_elem (uid : string) (entries : list (string * bool))
  (e : string * bool) :
  e ∈ onTypingValue uid (Some entries) <-> e ∈ entries /\ e.1 <> uid /\ e.2 = true.
Proof.
  unfold onTypingValue. rewrite list_elem_of_filter.
  rewrite andb_true_iff, bool_decide_eq_true. tauto.
Qed.

Lemma typing_after_SetTyping (c u : string) (b : bool) (st : Store) :
  n_typing (chatNode (applyWrite (SetTyping c u b) st) c) !! u = Some b.
Proof.
  unfold applyWrite. rewrite chatNode_updChat_eq. cbn [n_typing].
  by rewrite lookup_insert_eq.
Qed.

(** X1.  [setTypingStatus] and the typing listener, for a selected chat and
    a signed-in user [u]: after [setTypingStatus(b)], the list published to
    any other viewer from a snapshot of the chat's typing map holds [u]
    exactly when [b] is [true], and the list published to [u] never holds
    [u]; nothing published holds an entry that is not [true]. *)
Theorem setTypingStatus_seen_by_others (h : Host) (w : World)
  (chatId : option string) (c : string) (u : User.t) (b : bool)
  (viewer : string) (data : option (list (string * bool))) :
  selected chatId = Some c ->
  isTypingSnapshot (db (setTypingStatus chatId (Some u) b h w).2) c data ->
  (viewer <> User.uid u ->
     ((User.uid u, true) ∈ onTypingValue viewer data <-> b = true)) /\
  (forall e, e ∈ onTypingValue (User.uid u) data -> e.1 <> User.uid u) /\
  (forall e, e ∈ onTypingValue viewer data -> e.2 = true /\ e.1 <> viewer).
Proof.
  intros Hc Hsnap. unfold setTypingStatus in Hsnap. rewrite Hc in Hsnap.
  unfold set in Hsnap. cbn [snd db] in Hsnap.
  pose proof (typing_after_SetTyping c (User.uid u) b (db w)) as Hstored.
  destruct data as [entries|].
  - destruct Hsnap as (_ & _ & Hiff). split_and!.
    + intros Hne. rewrite onTypingValue_elem. cbn [fst snd]. split.
      * intros (Hin & _ & _). apply Hiff in Hin. congruence.
      * intros ->. split_and!; [by apply Hiff | congruence | done].
    + intros e He. by apply onTypingValue_elem in He as (_ & ? & _).
    + intros e He. by apply onTypingValue_elem in He as (_ & ? & ?).
  - unfold isTypingSnapshot in Hsnap. cbn zeta in Hsnap.
    rewrite Hsnap, lookup_empty in Hstored. done.
Qed.

(** X1 at a concrete input: Alice starts typing in chat c1; Bob's listener
    shows her. *)
Lemma setTypingStatus_seen_by_others_witness :
  (("alice", true) ∈ onTypingValue "bob" (Some [("alice", true)]) <-> true = true).
Proof.
  destruct (setTypingStatus_seen_by_others (Fixtures.hostAt 1000 1)
              Fixtures.emptyWorld (Some "c1") "c1" Fixtures.alice true "bob"
              (Some [("alice", true)])) as (Hseen & _ & _).
  - reflexivity.
  - split_and!.
    + discriminate.
    + cbn. apply NoDup_cons. split; [apply not_elem_of_nil | apply NoDup_nil_2].
    + intros u b. rewrite list_elem_of_singleton.
      assert (Hmap : n_typing (chatNode (db (setTypingStatus (Some "c1")
                        (Some Fixtures.alice) true (Fixtures.hostAt 1000 1)
                        Fixtures.emptyWorld).2) "c1") = {[ "alice" := true ]})
        by (vm_compute; reflexivity).
      rewrite Hmap, lookup_singleton_Some. split.
      * by intros [= -> ->].
      * by intros [-> ->].
  - apply Hseen. discriminate.
Defined.

(** X2.  After a send that goes through, the sender's entry in the chat's
    typing map is [false]: nothing the typing listener publishes, to any
    viewer and from any snapshot of that map, holds the sender. *)
Theorem sendMessage_clears_typing (h : Host) (w : World)
  (chatId : option string) (user : option User.t)
  (userProfile : option UserProfile.t) (text : jsstring)
  (c : string) (u : User.t) (p : UserProfile.t)
  (viewer : string) (data : option (list (string * bool))) :
  selected chatId = Some c -> user = Some u -> userProfile = Some p ->
  trim text <> [] ->
  Ai.isToxic (detectToxicity (toLowerCase h) text) = false ->
  let w' := (sendMessage chatId user userProfile text h w).2 in
  n_typing (chatNode (db w') c) !! User.uid u = Some false /\
  (isTypingSnapshot (db w') c data ->
   forall e, e ∈ onTypingValue viewer data -> e.1 <> User.uid u).
Proof.
  intros Hc Hu Hp Htrim Htox. cbn zeta.
  rewrite (sendMessage_run h w chatId user userProfile text c u p Hc Hu Hp Htrim Htox).
  cbn [snd db]. rewrite typing_after_SetTyping. split; [done|].
  intros Hsnap [v b] He. destruct data as [entries|]; [|by apply elem_of_nil in He].
  apply onTypingValue_elem in He as (Hin & _ & Hb). cbn [fst snd] in *. subst b.
  intros ->. destruct Hsnap as (_ & _ & Hiff). apply Hiff in Hin.
  rewrite typing_after_SetTyping in Hin. done.
Qed.

Lemma sendMessage_clears_typing_witness :
  n_typing (chatNode (db (sendMessage (Some "c1") (Some Fixtures.alice)
                            (Some Fixtures.aliceProfile) (lit "hello")
                            (Fixtures.hostAt 1000 1) Fixtures.emptyWorld).2) "c1")
    !! "alice" = Some false.
Proof.
  destruct (sendMessage_clears_typing (Fixtures.hostAt 1000 1) Fixtures.emptyWorld
              (Some "c1") (Some Fixtures.alice) (Some Fixtures.aliceProfile)
              (lit "hello") "c1" Fixtures.alice Fixtures.aliceProfile "bob" None)
    as [Hfalse _];
    [reflexivity | reflexivity | reflexivity | vm_compute; discriminate
    | vm_compute; reflexivity |].
  exact Hfalse.
Defined.









Lemma messageData_after_send (c k u : string) (m : MessageData) (s : jsstring)
  (t : Z) (st : Store) :
  let st' := applyWrite (SetTyping c u false)
               (applyWrite (SetLastMessageTime c t)
                  (applyWrite (SetLastMessage c s)
                     (applyWrite (SetMessage c k m) st))) in
  n_messages (chatNode st' c) = <[k := m]> (n_messages (chatNode st c)) /\
  n_lastMessage (chatNode st' c) = Some s /\
  n_lastMessageTime (chatNode st' c) = Some t.
Proof.
  cbn zeta. unfold applyWrite. rewrite !updChat_updChat, chatNode_updChat_eq.
  by cbn.
Qed.



(** X4.  A message that was sent is published: from any snapshot of the
    resulting store that holds the new key, the message listener publishes a
    message under that key with the sender's uid, the trimmed text, the
    emotion [analyzeEmotion] gives for the text as typed, and [isToxic]
    false. *)
Theorem sendMessage_then_published (h : Host) (w : World)
  (chatId : option string) (user : option User.t)
  (userProfile : option UserProfile.t) (text : jsstring)
  (c : string) (u : User.t) (p : UserProfile.t)
  (entries : list (string * MessageData)) :
  selected chatId = Some c -> user = Some u -> userProfile = Some p ->
  trim text <> [] ->
  Ai.isToxic (detectToxicity (toLowerCase h) text) = false ->
  let w' := (sendMessage chatId user userProfile text h w).2 in
  let k := pushKey h (pushes w) in
  isMessagesSnapshot (db w') c (Some entries) ->
  k ∈ entries.*1 ->
  exists m,
    m ∈ onMessagesValue (Some entries) /\
    Message.id m = k /\
    Message.senderId m = Some (User.uid u) /\
    Message.text m = Some (trim text) /\
    Message.emotion m = Some (analyzeEmotion text) /\
    Message.isToxic m = Some false.
Proof.
  intros Hc Hu Hp Htrim Htox. cbn zeta.
  rewrite (sendMessage_run h w chatId user userProfile text c u p Hc Hu Hp Htrim Htox).
  cbn [snd db]. intros (_ & _ & _ & Hsub) Hk.
  apply list_elem_of_fmap in Hk as ([k' msg] & Hk & Hin). cbn in Hk. subst k'.
  pose proof (Hsub _ _ Hin) as Hstored.
  edestruct messageData_after_send as (Hm & _ & _). rewrite Hm in Hstored.
  rewrite lookup_insert_eq in Hstored. injection Hstored as <-.
  eexists (Message.withId _ _). split.
  - apply onMessagesValue_elem. split; [|by eauto]. done.
  - by cbn.
Qed.

Lemma sendMessage_then_published_witness :
  let sent := sendMessage (Some "c1") (Some Fixtures.alice)
                (Some Fixtures.aliceProfile) (lit "hello")
                (Fixtures.hostAt 1000 1) Fixtures.emptyWorld in
  exists m,
    m ∈ onMessagesValue (Some (map_to_list (n_messages (chatNode (db sent.2) "c1")))) /\
    Message.text m = Some (lit "hello").
Proof.
  cbn zeta.
  destruct (sendMessage_then_published (Fixtures.hostAt 1000 1)
              Fixtures.emptyWorld (Some "c1") (Some Fixtures.alice)
              (Some Fixtures.aliceProfile) (lit "hello")
              "c1" Fixtures.alice Fixtures.aliceProfile
              (map_to_list (n_messages (chatNode
                 (db (sendMessage (Some "c1") (Some Fixtures.alice)
                        (Some Fixtures.aliceProfile) (lit "hello")
                        (Fixtures.hostAt 1000 1) Fixtures.emptyWorld).2) "c1"))))
    as (m & Hin & _ & _ & Htext & _);
    [reflexivity | reflexivity | reflexivity | vm_compute; discriminate
    | vm_compute; reflexivity | | | ].
  - split_and!.
    + vm_compute. discriminate.
    + vm_compute. apply NoDup_cons. split; [apply not_elem_of_nil | apply NoDup_nil_2].
    + vm_compute. reflexivity.
    + intros id msg Hin. apply elem_of_map_to_list in Hin. exact Hin.
  - vm_compute. apply list_elem_of_here.
  - exists m. split; [exact Hin | exact Htext].
Defined.

(* ===================================================================== *)
(** * More on deleteMessage *)
(* ===================================================================== *)

Lemma chatNode_after_delete (h : Host) (w : World) (chatId : option string)
  (user : option User.t) (c : string) (u : User.t) (k : string) :
  selected chatId = Some c -> user = Some u ->
  let n := chatNode (db w) c in
  let n' := chatNode (db (deleteMessage chatId user k h w).2) c in
  let m := default noMessageData (n_messages n !! k) in
  n_messages n' =
    <[k := mkMessageData (senderId m) (senderName m) (text m) (timestamp m)
             (emotion m) (isToxic m) (Some true) (Some (now h (clockReads w)))]>
      (n_messages n) /\
  n_lastMessage n' = n_lastMessage n /\
  n_lastMessageTime n' = n_lastMessageTime n /\
  n_typing n' = n_typing n /\
  n_participants n' = n_participants n.
Proof.
  intros Hc Hu. cbn zeta. rewrite (deleteMessage_db h w chatId user c u k Hc Hu).
  cbn [snd db]. rewrite chatNode_updChat_eq. by cbn.
Qed.

(** X5.  [deleteMessage] on a stored message is a soft delete: the record
    stays under its key with sender, text, timestamp, emotion and toxicity
    as they were, no record is added or removed, every other message is
    untouched, and so are the chat's [lastMessage] and [lastMessageTime]
    (the chat summary keeps showing what it showed), the other chats and
    the chat index. *)
Theorem deleteMessage_keeps_content (h : Host) (w : World)
  (chatId : option string) (user : option User.t) (c : string) (u : User.t)
  (k : string) (m : MessageData) :
  selected chatId = Some c -> user = Some u ->
  n_messages (chatNode (db w) c) !! k = Some m ->
  let st' := db (deleteMessage chatId user k h w).2 in
  let m' := messageData st' c k in
  (senderId m' = senderId m /\ senderName m' = senderName m /\
   text m' = text m /\ timestamp m' = timestamp m /\
   emotion m' = emotion m /\ isToxic m' = isToxic m) /\
  dom (n_messages (chatNode st' c)) = dom (n_messages (chatNode (db w) c)) /\
  (forall k', k' <> k ->
     n_messages (chatNode st' c) !! k' = n_messages (chatNode (db w) c) !! k') /\
  n_lastMessage (chatNode st' c) = n_lastMessage (chatNode (db w) c) /\
  n_lastMessageTime (chatNode st' c) = n_lastMessageTime (chatNode (db w) c) /\
  (forall c', c' <> c -> chatNode st' c' = chatNode (db w) c') /\
  userChats st' = userChats (db w).
Proof.
  intros Hc Hu Hm. cbn zeta. unfold messageData.
  destruct (chatNode_after_delete h w chatId user c u k Hc Hu)
    as (Hmsgs & Hl & Ht & _ & _).
  rewrite Hmsgs, Hl, Ht, Hm. cbn [default]. rewrite lookup_insert_eq.
  cbn [default senderId senderName text timestamp emotion isToxic].
  split_and!; try done.
  - rewrite dom_insert_L. apply subseteq_union_1_L, singleton_subseteq_l.
    by apply elem_of_dom_2 in Hm.
  - intros k' Hne. by rewrite lookup_insert_ne.
  - intros c' Hne. rewrite (deleteMessage_db h w chatId user c u k Hc Hu).
    cbn [snd db]. by rewrite chatNode_updChat_ne.
  - by rewrite (deleteMessage_db h w chatId user c u k Hc Hu).
Qed.

Lemma deleteMessage_keeps_content_witness :
  let h := Fixtures.hostAt 1000 1 in
  let sent := sendMessage (Some "c1") (Some Fixtures.alice)
                (Some Fixtures.aliceProfile) (lit "hello") h Fixtures.emptyWorld in
  let st' := db (deleteMessage (Some "c1") (Some Fixtures.alice) "k0" h sent.2).2 in
  text (messageData st' "c1" "k0") = Some (lit "hello") /\
  n_lastMessage (chatNode st' "c1") = Some (lit "hello").
Proof.
  cbn zeta.
  destruct (deleteMessage_keeps_content (Fixtures.hostAt 1000 1)
              (sendMessage (Some "c1") (Some Fixtures.alice)
                 (Some Fixtures.aliceProfile) (lit "hello")
                 (Fixtures.hostAt 1000 1) Fixtures.emptyWorld).2
              (Some "c1") (Some Fixtures.alice) "c1" Fixtures.alice "k0"
              (mkMessageData (Some "alice") (Some (lit "Alice")) (Some (lit "hello"))
                 (Some 1000) (Some neutral) (Some false) None None))
    as ((_ & _ & Htext & _) & _ & _ & Hlast & _);
    [reflexivity | reflexivity | vm_compute; reflexivity |].
  split; [exact Htext|]. rewrite Hlast. vm_compute. reflexivity.
Defined.

(** X6.  [deleteMessage] on a message id that has no record does not fail
    and does not stay without effect: it creates a record under that id
    that holds [isDeleted] and [deletedAt] and nothing else (no sender, no
    text, no timestamp), so the chat has one record more. *)
Theorem deleteMessage_unknown_id (h : Host) (w : World)
  (chatId : option string) (user : option User.t) (c : string) (u : User.t)
  (k : string) :
  selected chatId = Some c -> user = Some u ->
  n_messages (chatNode (db w) c) !! k = None ->
  let r := deleteMessage chatId user k h w in
  r.1 = Normal tt /\
  n_messages (chatNode (db r.2) c) !! k =
    Some (mkMessageData None None None None None None (Some true)
            (Some (now h (clockReads w)))) /\
  size (n_messages (chatNode (db r.2) c)) = S (size (n_messages (chatNode (db w) c))).
Proof.
  intros Hc Hu Hm. cbn zeta.
  destruct (chatNode_after_delete h w chatId user c u k Hc Hu) as (Hmsgs & _).
  rewrite Hmsgs, Hm. cbn [default noMessageData senderId senderName text
    timestamp emotion isToxic].
  rewrite (deleteMessage_db h w chatId user c u k Hc Hu). cbn [fst].
  split; [done|]. split; [by rewrite lookup_insert_eq|].
  by rewrite map_size_insert_None.
Qed.

Lemma deleteMessage_unknown_id_witness :
  size (n_messages (chatNode
          (db (deleteMessage (Some "c1") (Some Fixtures.alice) "nothing-here"
                 (Fixtures.hostAt 1000 1) Fixtures.emptyWorld).2) "c1")) = 1%nat.
Proof.
  destruct (deleteMessage_unknown_id (Fixtures.hostAt 1000 1) Fixtures.emptyWorld
              (Some "c1") (Some Fixtures.alice) "c1" Fixtures.alice "nothing-here")
    as (_ & _ & Hsize); [reflexivity | reflexivity | reflexivity |].
  exact Hsize.
Defined.

(* ===================================================================== *)
(** * More on the chat listener and on creating chats *)
(* ===================================================================== *)

Lemma insertSorted_filter {A : Type} (key : A -> Z) (P : A -> Prop)
  `{forall a, Decision (P a)} (x : A) (l : list A) :
  (forall a b, P a -> P b -> key a = key b) ->
  filter P (insertSorted (fun a b => key b - key a) x l) = filter P (x :: l).
Proof.
  intros HP. induction l as [|y l IH]; cbn [insertSorted]; [done|].
  destruct (0 <? key y - key x) eqn:Hcmp; [|done].
  apply Z.ltb_lt in Hcmp.
  rewrite (filter_cons P y), IH, !(filter_cons P x), (filter_cons P y).
  destruct (decide (P x)) as [Hx|Hx], (decide (P y)) as [Hy|Hy]; try done.
  specialize (HP x y Hx Hy). lia.
Qed.

Lemma sort_filter {A : Type} (key : A -> Z) (P : A -> Prop)
  `{forall a, Decision (P a)} (l : list A) :
  (forall a b, P a -> P b -> key a = key b) ->
  filter P (sort (fun a b => key b - key a) l) = filter P l.
Proof.
  intros HP. induction l as [|x l IH]; cbn [sort]; [done|].
  rewrite insertSorted_filter by done. by rewrite !filter_cons, IH.
Qed.

(** X7.  The chat listener's sort is stable: the chats that share a value
    of [lastMessageTime || 0], among them all the chats without messages,
    are published in the order in which the index lists them. *)
Theorem onUserChatsValue_stable (chatIds : list string)
  (readOnce : string -> option ChatData) (t : Z) :
  let sameTime chat := orZero (Chat.lastMessageTime chat) = t in
  filter sameTime (onUserChatsValue (Some chatIds) readOnce)
  = filter sameTime
      (omap (fun chatId => Chat.withId chatId <$> readOnce chatId) chatIds).
Proof.
  cbn zeta. unfold onUserChatsValue.
  rewrite (sort_filter (fun chat => orZero (Chat.lastMessageTime chat)))
    by (intros a b Ha Hb; congruence).
  f_equal. induction chatIds as [|c l IH]; [done|].
  cbn. destruct (readOnce c); cbn; by rewrite ?IH.
Qed.

(** The index writes of [createGroupChat], folded over the participants. *)
Lemma setIndexEntries_run (participants : list string) (chatId : string)
  (h : Host) (w : World) :
  setIndexEntries participants chatId h w =
    (Normal tt,
     mkWorld
       (foldl (fun st p => applyWrite (SetUserChat p chatId true) st) (db w)
              participants)
       (clockReads w) (pushes w)
       (log w ++ map (fun p => Wrote (SetUserChat p chatId true)) participants)).
Proof.
  revert w. induction participants as [|p l IH]; intros w.
  - cbn. rewrite app_nil_r. by destruct w.
  - cbn [setIndexEntries]. unfold bind at 1. unfold set at 1.
    rewrite IH. cbn [db clockReads pushes log foldl map].
    by rewrite <- app_assoc.
Qed.

Lemma index_after_entries (participants : list string) (chatId : string)
  (st : Store) :
  let st' := foldl (fun st p => applyWrite (SetUserChat p chatId true) st) st
               participants in
  chats st' = chats st /\
  (forall p, p ∈ participants ->
     default ∅ (userChats st' !! p) !! chatId = Some true) /\
  (forall p, p ∉ participants -> userChats st' !! p = userChats st !! p).
Proof.
  cbn zeta. revert st. induction participants as [|q l IH]; intros st.
  - cbn. split_and!; [done | | done]. intros p Hp. by apply elem_of_nil in Hp.
  - cbn [foldl]. destruct (IH (applyWrite (SetUserChat q chatId true) st))
      as (Hc & Hin & Hout).
    split_and!.
    + by rewrite Hc.
    + intros p Hp. destruct (decide (p ∈ l)) as [Hl|Hl]; [by apply Hin|].
      apply elem_of_cons in Hp as [->|Hp]; [|done].
      rewrite (Hout q Hl). cbn [applyWrite userChats].
      rewrite lookup_insert_eq. cbn. by rewrite lookup_insert_eq.
    + intros p Hp. apply not_elem_of_cons in Hp as [Hne Hl].
      rewrite (Hout p Hl). cbn [applyWrite userChats].
      by rewrite lookup_insert_ne.
Qed.

Lemma createGroupChat_run (h : Host) (w : World) (u : User.t)
  (participantIds : list string) (groupName : jsstring)
  (participantNames : gmap string jsstring) :
  let chatId := pushKey h (pushes w) in
  let chat :=
    mkChatData (User.uid u :: participantIds)
      (participantNames ∪ {[ User.uid u := nameOrUser (User.displayName u) ]})
      None None true (Some groupName) (now h (clockReads w)) in
  createGroupChat (Some u) participantIds groupName participantNames h w =
    (Normal (Some chatId),
     mkWorld
       (foldl (fun st p => applyWrite (SetUserChat p chatId true) st)
              (applyWrite (SetChat chatId chat) (db w))
              (User.uid u :: participantIds))
       (S (clockReads w)) (S (pushes w))
       (log w ++ Wrote (SetChat chatId chat) ::
          map (fun p => Wrote (SetUserChat p chatId true))
              (User.uid u :: participantIds))).
Proof.
  cbn zeta. unfold createGroupChat, bind, push, Date_now, set, ret.
  cbn [fst snd db clockReads pushes log]. rewrite setIndexEntries_run.
  cbn [db clockReads pushes log]. by rewrite <- app_assoc.
Qed.

(** X8.  [createGroupChat] for a signed-in user always creates: it returns
    the new key, stores under it a group chat whose participants are the
    caller followed by the given ids, writes the index entry of the new chat
    for each of them, the caller included, and for nobody else; it issues
    one write for the record and one per participant.  In the stored names,
    an entry passed for the caller's own uid takes the place of the caller's
    display name. *)
Theorem createGroupChat_indexes_everyone (h : Host) (w : World) (u : User.t)
  (participantIds : list string) (groupName : jsstring)
  (participantNames : gmap string jsstring) :
  let r := createGroupChat (Some u) participantIds groupName participantNames h w in
  let chatId := pushKey h (pushes w) in
  let everyone := User.uid u :: participantIds in
  r.1 = Normal (Some chatId) /\
  n_participants (chatNode (db r.2) chatId) = Some everyone /\
  n_isGroup (chatNode (db r.2) chatId) = Some true /\
  n_groupName (chatNode (db r.2) chatId) = Some groupName /\
  (forall p, p ∈ everyone ->
     default ∅ (userChats (db r.2) !! p) !! chatId = Some true) /\
  (forall p, p ∉ everyone -> userChats (db r.2) !! p = userChats (db w) !! p) /\
  length (List.filter isWrite (log r.2))
    = (length (List.filter isWrite (log w)) + 1 + length everyone)%nat /\
  (forall names, n_participantNames (chatNode (db r.2) chatId) = Some names ->
     names !! User.uid u =
       Some (default (nameOrUser (User.displayName u))
                     (participantNames !! User.uid u))).
Proof.
  cbn zeta. rewrite createGroupChat_run. cbn [fst snd db log].
  match goal with
  | |- context [applyWrite (SetChat ?k ?d) (db w)] =>
      set (st1 := applyWrite (SetChat k d) (db w))
  end.
  destruct (index_after_entries (User.uid u :: participantIds)
              (pushKey h (pushes w)) st1) as (Hc & Hin & Hout).
  assert (Hnode : chatNode (foldl (fun st p =>
                     applyWrite (SetUserChat p (pushKey h (pushes w)) true) st)
                     st1 (User.uid u :: participantIds)) (pushKey h (pushes w))
                  = mkChatNode (Some (User.uid u :: participantIds))
                      (Some (participantNames ∪
                               {[ User.uid u := nameOrUser (User.displayName u) ]}))
                      (Some true) (Some groupName)
                      (Some (now h (clockReads w))) None None ∅ ∅).
  { unfold chatNode at 1. rewrite Hc. subst st1. unfold applyWrite, updChat.
    cbn [chats]. by rewrite lookup_insert_eq. }
  rewrite Hnode. cbn [n_participants n_isGroup n_groupName n_participantNames].
  split_and!; try done.
  - rewrite !List.filter_app, !length_app. cbn [List.filter isWrite length].
    assert (Hall : forall l : list string,
               length (List.filter isWrite
                 (map (fun p => Wrote (SetUserChat p (pushKey h (pushes w)) true)) l))
               = length l).
    { induction l as [|q l IH]; [done|]. cbn. by rewrite IH. }
    rewrite (Hall (User.uid u :: participantIds)). cbn [length]. lia.
  - intros names [= <-]. rewrite lookup_union.
    destruct (participantNames !! User.uid u) as [n|] eqn:Hn; rewrite ?Hn.
    + by rewrite lookup_singleton_eq.
    + by rewrite lookup_singleton_eq.
Qed.

Lemma find_none_Forall (uid participantId : string) (cached : list Chat.t) :
  Forall (fun chat => isDirectChatWith uid participantId chat = false) cached ->
  List.find (isDirectChatWith uid participantId) cached = None.
Proof.
  induction 1 as [|chat l Hc _ IH]; [done|]. cbn [List.find]. by rewrite Hc.
Qed.

(** The world after [createChat] found nothing to reuse. *)
Lemma createChat_run (h : Host) (w : World) (u : User.t) (cached : list Chat.t)
  (participantId : string) (participantName : jsstring) :
  Forall (fun chat => isDirectChatWith (User.uid u) participantId chat = false)
         cached ->
  let chatId := pushKey h (pushes w) in
  let chat :=
    mkChatData [User.uid u; participantId]
      (<[participantId := participantName]>
         {[ User.uid u := nameOrUser (User.displayName u) ]})
      None None false None (now h (clockReads w)) in
  createChat (Some u) cached participantId participantName h w =
    (Normal (Some chatId),
     mkWorld
       (applyWrite (SetUserChat participantId chatId true)
          (applyWrite (SetUserChat (User.uid u) chatId true)
             (applyWrite (SetChat chatId chat) (db w))))
       (S (clockReads w)) (S (pushes w))
       (log w ++ [ Wrote (SetChat chatId chat);
                   Wrote (SetUserChat (User.uid u) chatId true);
                   Wrote (SetUserChat participantId chatId true) ])).
Proof.
  intros Hnone. cbn zeta. unfold createChat.
  rewrite (find_none_Forall _ _ _ Hnone).
  unfold bind, push, Date_now, set, ret. cbn -[applyWrite].
  by rewrite <- !app_assoc.
Qed.

Lemma chatNode_SetUserChat (p k : string) (b : bool) (st : Store) (c : string) :
  chatNode (applyWrite (SetUserChat p k b) st) c = chatNode st c.
Proof. done. Qed.

Lemma chatNode_SetChat (k : string) (d : ChatData) (st : Store) (c : string) :
  chatNode (applyWrite (SetChat k d) st) c =
  if decide (k = c)
  then mkChatNode (Some (participants d)) (Some (participantNames d))
         (Some (isGroup d)) (groupName d) (Some (createdAt d))
         (lastMessage d) (lastMessageTime d) ∅ ∅
  else chatNode st c.
Proof. unfold applyWrite. by rewrite chatNode_updChat. Qed.

Lemma index_SetUserChat (p k : string) (b : bool) (st : Store) (q k' : string) :
  default ∅ (userChats (applyWrite (SetUserChat p k b) st) !! q) !! k' =
  if decide (p = q /\ k = k') then Some b
  else default ∅ (userChats st !! q) !! k'.
Proof.
  cbn [applyWrite userChats]. destruct (decide (p = q)) as [->|Hpq].
  - rewrite lookup_insert_eq. simpl.
    destruct (decide (k = k')) as [->|Hk].
    + rewrite lookup_insert_eq. by rewrite decide_True.
    + rewrite lookup_insert_ne by done. rewrite decide_False by tauto. done.
  - rewrite lookup_insert_ne by done. rewrite decide_False by tauto. done.
Qed.

Lemma index_SetChat (k : string) (d : ChatData) (st : Store) :
  userChats (applyWrite (SetChat k d) st) = userChats st.
Proof. done. Qed.

(** X9.  [createChat] does not enforce one direct chat per pair: called
    twice with a cache that holds no direct chat of the two users (the
    listener has not published the first chat yet), it creates two chat
    records with the same two participants under two keys, and the caller's
    index holds both. *)
Theorem createChat_stale_cache_creates_twice (h : Host) (w : World) (u : User.t)
  (cached : list Chat.t) (participantId : string) (participantName : jsstring) :
  Forall (fun chat => isDirectChatWith (User.uid u) participantId chat = false)
         cached ->
  pushKey h (S (pushes w)) <> pushKey h (pushes w) ->
  let first := createChat (Some u) cached participantId participantName h w in
  let second := createChat (Some u) cached participantId participantName h first.2 in
  let k1 := pushKey h (pushes w) in
  let k2 := pushKey h (S (pushes w)) in
  first.1 = Normal (Some k1) /\ second.1 = Normal (Some k2) /\ k1 <> k2 /\
  n_participants (chatNode (db second.2) k1) = Some [User.uid u; participantId] /\
  n_participants (chatNode (db second.2) k2) = Some [User.uid u; participantId] /\
  n_isGroup (chatNode (db second.2) k1) = Some false /\
  n_isGroup (chatNode (db second.2) k2) = Some false /\
  default ∅ (userChats (db second.2) !! User.uid u) !! k1 = Some true /\
  default ∅ (userChats (db second.2) !! User.uid u) !! k2 = Some true.
Proof.
  intros Hnone Hkeys. cbn zeta.
  rewrite (createChat_run h w u cached participantId participantName Hnone).
  cbn [fst snd].
  rewrite (createChat_run h _ u cached participantId participantName Hnone).
  cbn [fst snd db pushes clockReads].
  rewrite !chatNode_SetUserChat, !chatNode_SetChat.
  rewrite !chatNode_SetUserChat, !chatNode_SetChat.
  rewrite (decide_False (P := pushKey h (S (pushes w)) = pushKey h (pushes w))) by done.
  rewrite !decide_True by done.
  cbn [n_participants n_isGroup participants isGroup].
  split_and!; try done.
  - rewrite !index_SetUserChat, index_SetChat.
    rewrite (decide_False (P := participantId = User.uid u /\ pushKey h (S (pushes w)) = pushKey h (pushes w))) by tauto.
    rewrite (decide_False (P := User.uid u = User.uid u /\ pushKey h (S (pushes w)) = pushKey h (pushes w))) by tauto.
    rewrite !index_SetUserChat.
    destruct (decide (participantId = User.uid u /\ _)); [done|].
    by rewrite decide_True.
  - rewrite !index_SetUserChat.
    destruct (decide (participantId = User.uid u /\ _)); [done|].
    by rewrite decide_True.
Qed.

Lemma createChat_stale_cache_creates_twice_witness :
  let h := Fixtures.hostAt 1000 1 in
  let first := createChat (Some Fixtures.alice) [] "bob" (lit "Bob") h
                 Fixtures.emptyWorld in
  let second := createChat (Some Fixtures.alice) [] "bob" (lit "Bob") h first.2 in
  first.1 = Normal (Some "k0") /\ second.1 = Normal (Some "k1").
Proof.
  cbn zeta.
  destruct (createChat_stale_cache_creates_twice (Fixtures.hostAt 1000 1)
              Fixtures.emptyWorld Fixtures.alice [] "bob" (lit "Bob"))
    as (H1 & H2 & _); [constructor | vm_compute; discriminate |].
  split; [exact H1 | exact H2].
Defined.

Lemma createChat_reuse (h : Host) (w : World) (u : User.t) (cached : list Chat.t)
  (participantId : string) (participantName : jsstring) (chat : Chat.t) :
  chat ∈ cached ->
  isDirectChatWith (User.uid u) participantId chat = true ->
  exists existing,
    existing ∈ cached /\
    isDirectChatWith (User.uid u) participantId existing = true /\
    createChat (Some u) cached participantId participantName h w
      = (Normal (Some (Chat.id existing)), w).
Proof.
  intros Hin Hmatch. unfold createChat.
  destruct (List.find (isDirectChatWith (User.uid u) participantId) cached)
    as [existing|] eqn:Hfind.
  - apply find_some in Hfind as [Hin' Hm]. exists existing.
    split; [by apply list_elem_of_In|]. by split.
  - apply list_elem_of_In in Hin.
    pose proof (find_none _ _ Hfind chat Hin). congruence.
Qed.

Lemma onUserChatsValue_elem (chatIds : list string)
  (readOnce : string -> option ChatData) (k : string) (d : ChatData) :
  k ∈ chatIds -> readOnce k = Some d ->
  Chat.withId k d ∈ onUserChatsValue (Some chatIds) readOnce.
Proof.
  intros Hk Hread. unfold onUserChatsValue.
  rewrite sort_perm.
  apply list_elem_of_omap. exists (Some (Chat.withId k d)). split; [|done].
  apply list_elem_of_fmap. exists k. by rewrite Hread.
Qed.

(** X10.  Once the listener has published the chat [createChat] wrote, a
    later [createChat] between the same two users creates nothing, whoever
    of the two calls it: with a cache published from an index that lists the
    new key and a read of [chats/key] that gives the stored participants and
    group flag, the call returns the id of a cached direct chat of the two
    and leaves the world as it was. *)
Theorem createChat_reused_after_refresh (h : Host) (w : World) (u v : User.t)
  (cached : list Chat.t) (participantName : jsstring)
  (chatIds : list string) (readOnce : string -> option ChatData) (d : ChatData)
  (h' : Host) (w' : World) (name' : jsstring) :
  Forall (fun chat => isDirectChatWith (User.uid u) (User.uid v) chat = false)
         cached ->
  let r := createChat (Some u) cached (User.uid v) participantName h w in
  let k := pushKey h (pushes w) in
  k ∈ chatIds ->
  readOnce k = Some d ->
  n_participants (chatNode (db r.2) k) = Some (participants d) ->
  n_isGroup (chatNode (db r.2) k) = Some (isGroup d) ->
  let refreshed := onUserChatsValue (Some chatIds) readOnce in
  (exists existing,
     existing ∈ refreshed /\
     isDirectChatWith (User.uid u) (User.uid v) existing = true /\
     createChat (Some u) refreshed (User.uid v) name' h' w'
       = (Normal (Some (Chat.id existing)), w')) /\
  (exists existing,
     existing ∈ refreshed /\
     isDirectChatWith (User.uid v) (User.uid u) existing = true /\
     createChat (Some v) refreshed (User.uid u) name' h' w'
       = (Normal (Some (Chat.id existing)), w')).
Proof.
  intros Hnone. cbn zeta.
  rewrite (createChat_run h w u cached (User.uid v) participantName Hnone).
  cbn [snd db]. rewrite !chatNode_SetUserChat, chatNode_SetChat.
  rewrite decide_True by done. cbn [n_participants n_isGroup participants isGroup].
  intros Hk Hread [= Hparts] [= Hgroup].
  pose proof (onUserChatsValue_elem chatIds readOnce _ d Hk Hread) as Hin.
  assert (Hboth : isDirectChatWith (User.uid u) (User.uid v)
                    (Chat.withId (pushKey h (pushes w)) d) = true /\
                  isDirectChatWith (User.uid v) (User.uid u)
                    (Chat.withId (pushKey h (pushes w)) d) = true).
  { unfold isDirectChatWith. cbn [Chat.withId Chat.isGroup Chat.participants].
    rewrite <- Hparts, <- Hgroup. cbn [negb andb].
    assert (Hu : includes (User.uid u) [User.uid u; User.uid v] = true)
      by (apply includes_spec, list_elem_of_here).
    assert (Hv : includes (User.uid v) [User.uid u; User.uid v] = true)
      by (apply includes_spec, list_elem_of_further, list_elem_of_here).
    by rewrite Hu, Hv. }
  destruct Hboth as [Huv Hvu]. split.
  - exact (createChat_reuse h' w' u _ (User.uid v) name' _ Hin Huv).
  - exact (createChat_reuse h' w' v _ (User.uid u) name' _ Hin Hvu).
Qed.

Lemma createChat_reused_after_refresh_witness :
  let h := Fixtures.hostAt 1000 1 in
  let bob := User.mk "bob" (Some (lit "Bob")) in
  let d := mkChatData ["alice"; "bob"] ∅ None None false None 1000 in
  let readOnce chatId := if decide (chatId = "k0") then Some d else None in
  exists existing,
    createChat (Some bob) (onUserChatsValue (Some ["k0"]) readOnce) "alice"
      (lit "Alice") h Fixtures.emptyWorld
    = (Normal (Some (Chat.id existing)), Fixtures.emptyWorld).
Proof.
  cbn zeta.
  destruct (createChat_reused_after_refresh (Fixtures.hostAt 1000 1)
              Fixtures.emptyWorld Fixtures.alice (User.mk "bob" (Some (lit "Bob")))
              [] (lit "Bob") ["k0"]
              (fun chatId => if decide (chatId = "k0")
                             then Some (mkChatData ["alice"; "bob"] ∅ None None
                                          false None 1000)
                             else None)
              (mkChatData ["alice"; "bob"] ∅ None None false None 1000)
              (Fixtures.hostAt 1000 1) Fixtures.emptyWorld (lit "Alice"))
    as (_ & existing & _ & _ & Hrun);
    [constructor | apply list_elem_of_here | reflexivity
    | vm_compute; reflexivity | vm_compute; reflexivity |].
  exists existing. exact Hrun.
Defined.

(** X11.  The name shown for the direct chat [createChat] wrote: to its
    creator, the name passed for the other user; to the other user, the
    creator's display name, or "User" when the creator has none; and
    "Unknown" when a user created the chat with themselves.  (Ids are not
    empty.) *)
Theorem getChatDisplayName_of_created (h : Host) (w : World) (u v : User.t)
  (cached : list Chat.t) (participantName : jsstring) :
  Forall (fun chat => isDirectChatWith (User.uid u) (User.uid v) chat = false)
         cached ->
  User.uid u <> "" -> User.uid v <> "" ->
  let r := createChat (Some u) cached (User.uid v) participantName h w in
  exists k d,
    r.1 = Normal (Some k) /\
    Wrote (SetChat k d) ∈ log r.2 /\
    (User.uid u <> User.uid v ->
       ChatList.getChatDisplayName (Some u) (Chat.withId k d) = Some participantName /\
       ChatList.getChatDisplayName (Some v) (Chat.withId k d)
         = Some (nameOrUser (User.displayName u))) /\
    (User.uid u = User.uid v ->
       ChatList.getChatDisplayName (Some u) (Chat.withId k d) = Some (lit "Unknown")).
Proof.
  intros Hnone Hu Hv. cbn zeta.
  rewrite (createChat_run h w u cached (User.uid v) participantName Hnone).
  cbn [fst snd log]. eexists _, _. split; [reflexivity|].
  split; [apply elem_of_app; right; apply list_elem_of_here|].
  unfold ChatList.getChatDisplayName.
  cbn [Chat.withId Chat.isGroup Chat.participants Chat.participantNames
       isGroup participants participantNames List.find fmap option_fmap option_map].
  split.
  - intros Hne. split.
    + rewrite bool_decide_eq_true_2 by done. cbn [negb].
      rewrite bool_decide_eq_false_2 by congruence. cbn [negb].
      rewrite decide_False by done. by rewrite lookup_insert_eq.
    + rewrite bool_decide_eq_false_2 by congruence. cbn [negb].
      rewrite decide_False by done.
      rewrite lookup_insert_ne by congruence. by rewrite lookup_singleton_eq.
  - intros Heq. rewrite <- Heq.
    rewrite !bool_decide_eq_true_2 by done. done.
Qed.

Lemma getChatDisplayName_of_created_witness :
  let bob := User.mk "bob" (Some (lit "Bob")) in
  exists k d,
    (createChat (Some Fixtures.alice) [] "bob" (lit "Bobby")
       (Fixtures.hostAt 1000 1) Fixtures.emptyWorld).1 = Normal (Some k) /\
    ChatList.getChatDisplayName (Some Fixtures.alice) (Chat.withId k d)
      = Some (lit "Bobby") /\
    ChatList.getChatDisplayName (Some bob) (Chat.withId k d) = Some (lit "Alice").
Proof.
  cbn zeta.
  destruct (getChatDisplayName_of_created (Fixtures.hostAt 1000 1)
              Fixtures.emptyWorld Fixtures.alice (User.mk "bob" (Some (lit "Bob")))
              [] (lit "Bobby"))
    as (k & d & Hk & _ & Hnames & _); [constructor | done | done |].
  destruct Hnames as [Ha Hb]; [done|].
  exists k, d. split; [exact Hk|]. split; [exact Ha | exact Hb].
Defined.

(* ===================================================================== *)
(** * The classifiers and the case of ASCII letters *)
(* ===================================================================== *)

Lemma matcher_ext (ic : bool) (p : Pattern) (input : jsstring) (i : nat)
  (k k' : nat -> bool) :
  (forall j, k j = k' j) -> matcher ic p input i k = matcher ic p input i k'.
Proof.
  revert i k k'. induction p as [c|cs| | |p IHp q IHq|p IHp q IHq];
    intros i k k' Hk; cbn [matcher]; rewrite ?Hk; try done.
  - apply IHp. intros j. by apply IHq.
  - by rewrite (IHp i k k' Hk), (IHq i k k' Hk).
Qed.

Ltac cases_N :=
  repeat match goal with
         | |- context [(?a <=? ?b)%N] => destruct (N.leb_spec a b)
         | |- context [(?a =? ?b)%N] => destruct (N.eqb_spec a b)
         | H : context [(?a <=? ?b)%N] |- _ => destruct (N.leb_spec a b)
         end;
  cbn [andb orb negb] in *; try done; try lia.

Lemma canonicalize_lower (c : N) : canonicalize true (lowerAscii c) = canonicalize true c.
Proof.
  unfold canonicalize, lowerAscii. cbn [andb].
  destruct (N.leb_spec 65 c), (N.leb_spec c 90); cbn [andb]; cases_N.
Qed.

Lemma isWordCU_lower (c : N) : isWordCU (lowerAscii c) = isWordCU c.
Proof.
  unfold isWordCU, lowerAscii.
  destruct (N.leb_spec 65 c), (N.leb_spec c 90); cbn [andb orb]; cases_N.
Qed.

Lemma lookup_lowered (input : jsstring) (i : nat) :
  map lowerAscii input !! i = lowerAscii <$> (input !! i).
Proof.
  revert i. induction input as [|c s IH]; intros [|i]; cbn; by try apply IH.
Qed.

Lemma isWordChar_lower (input : jsstring) (e : Z) :
  isWordChar (map lowerAscii input) e = isWordChar input e.
Proof.
  unfold isWordChar. destruct (e <? 0); [done|].
  rewrite lookup_lowered.
  destruct (input !! Z.to_nat e); cbn; [apply isWordCU_lower | done].
Qed.

Lemma matcher_lower_i (p : Pattern) (input : jsstring) (i : nat) (k : nat -> bool) :
  matcher true p (map lowerAscii input) i k = matcher true p input i k.
Proof.
  revert i k. induction p as [c|cs| | |p IHp q IHq|p IHp q IHq];
    intros i k; cbn [matcher].
  - rewrite lookup_lowered.
    destruct (input !! i); cbn; [|done]. by rewrite canonicalize_lower.
  - rewrite lookup_lowered.
    destruct (input !! i) as [ch|]; cbn; [|done].
    by rewrite canonicalize_lower.
  - by rewrite !isWordChar_lower.
  - done.
  - rewrite IHp. apply matcher_ext. intros j. apply IHq.
  - by rewrite IHp, IHq.
Qed.

Lemma existsb_class_lower (cs : list N) (ch : N) :
  forallb (fun c => negb (isAsciiLetter c)) cs = true ->
  existsb (fun c => (lowerAscii ch =? c)%N) cs = existsb (fun c => (ch =? c)%N) cs.
Proof.
  induction cs as [|c cs IH]; [done|]. cbn [forallb existsb].
  intros [Hc Hcs]%andb_prop. rewrite (IH Hcs). f_equal.
  apply negb_true_iff in Hc. unfold isAsciiLetter in Hc. unfold lowerAscii.
  destruct (N.leb_spec 65 ch), (N.leb_spec ch 90); cbn [andb]; try done.
  destruct (N.eqb_spec (ch + 32) c), (N.eqb_spec ch c); try done; subst;
    cases_N.
Qed.

Lemma existsb_pointwise {A : Type} (f g : A -> bool) (l : list A) :
  (forall x, f x = g x) -> existsb f l = existsb g l.
Proof. intros Hfg. induction l as [|x l IH]; cbn; by rewrite ?Hfg, ?IH. Qed.

Lemma test_lower (re : RegExp) (input : jsstring) :
  caseBlind re = true -> test re (map lowerAscii input) = test re input.
Proof.
  intros Hblind. unfold test. rewrite length_map.
  apply existsb_pointwise. intros i.
  destruct re as [p [|]]; cbn [ignoreCase source] in *.
  - apply matcher_lower_i.
  - unfold caseBlind in Hblind. cbn [ignoreCase source orb] in Hblind.
    destruct p as [|cs| | | |]; try done. cbn [matcher].
    rewrite lookup_lowered.
    destruct (input !! i) as [ch|]; cbn; [|done].
    unfold canonicalize. cbn [andb]. by rewrite existsb_class_lower.
Qed.

Lemma anyPatternMatches_lower (patterns : list RegExp) (input : jsstring) :
  forallb caseBlind patterns = true ->
  anyPatternMatches patterns (map lowerAscii input) = anyPatternMatches patterns input.
Proof.
  unfold anyPatternMatches. induction patterns as [|re l IH]; [done|].
  cbn [forallb existsb]. intros [Hre Hl]%andb_prop.
  by rewrite test_lower, IH.
Qed.

Lemma analyzeEmotion_from_lower (entries : list (Emotion * list RegExp))
  (input : jsstring) :
  forallb (fun entry => forallb caseBlind entry.2) entries = true ->
  analyzeEmotion_from entries (map lowerAscii input) = analyzeEmotion_from entries input.
Proof.
  induction entries as [|[emotion patterns] rest IH]; [done|].
  cbn [forallb analyzeEmotion_from snd]. intros [Hp Hrest]%andb_prop.
  rewrite anyPatternMatches_lower by done. by rewrite IH.
Qed.

(** X12.  [analyzeEmotion] does not depend on the case of ASCII letters:
    the text and its ASCII lower-casing get the same tag, so two texts that
    differ only in the case of ASCII letters are tagged alike. *)
Theorem analyzeEmotion_ignores_ascii_case (text text' : jsstring) :
  analyzeEmotion (toLowerCase_ascii text) = analyzeEmotion text /\
  (toLowerCase_ascii text = toLowerCase_ascii text' ->
   analyzeEmotion text = analyzeEmotion text').
Proof.
  assert (Hlow : forall s, analyzeEmotion (toLowerCase_ascii s) = analyzeEmotion s).
  { intros s. unfold analyzeEmotion, toLowerCase_ascii.
    apply (analyzeEmotion_from_lower emotionPatterns s). vm_compute. reflexivity. }
  split; [apply Hlow|].
  intros Heq. by rewrite <- (Hlow text), Heq, Hlow.
Qed.

Lemma analyzeEmotion_ignores_ascii_case_witness :
  analyzeEmotion (lit "I Am SO HAPPY") = analyzeEmotion (lit "i am so happy").
Proof.
  destruct (analyzeEmotion_ignores_ascii_case (lit "I Am SO HAPPY")
              (lit "i am so happy")) as [_ Hsame].
  apply Hsame. vm_compute. reflexivity.
Defined.

(** X13.  On a text that the engine lower-cases as ASCII (a text without
    other cased characters), the lower-casing in [detectToxicity] changes
    nothing: the text is flagged exactly when one of [toxicPatterns] matches
    the text as typed. *)
Theorem detectToxicity_lowercasing_redundant
  (toLowerCase : jsstring -> jsstring) (text : jsstring) :
  toLowerCase text = toLowerCase_ascii text ->
  Ai.isToxic (detectToxicity toLowerCase text)
  = existsb (fun pattern => test pattern text) toxicPatterns.
Proof.
  intros Hascii. unfold detectToxicity. rewrite Hascii.
  assert (Hsame : existsb (fun pattern => test pattern (toLowerCase_ascii text))
                    toxicPatterns
                  = existsb (fun pattern => test pattern text) toxicPatterns).
  { unfold toLowerCase_ascii.
    exact (anyPatternMatches_lower toxicPatterns text eq_refl). }
  rewrite Hsame.
  generalize (existsb (fun pattern => test pattern text) toxicPatterns).
  by intros [].
Qed.


Lemma detectToxicity_lowercasing_redundant_witness :
  Ai.isToxic (detectToxicity toLowerCase_ascii (lit "You Are An IDIOT"))
  = existsb (fun pattern => test pattern (lit "You Are An IDIOT")) toxicPatterns.
Proof.
  apply (detectToxicity_lowercasing_redundant toLowerCase_ascii
           (lit "You Are An IDIOT")).
  reflexivity.
Defined.

(* ===================================================================== *)
(** * getSupportiveResponse and the send handler of the view *)
(* ===================================================================== *)





(** The world after a send of a flagged text whose preconditions hold. *)
Lemma sendMessage_toxic_run (h : Host) (w : World) (chatId : option string)
  (user : option User.t) (userProfile : option UserProfile.t) (text : jsstring)
  (c : string) (u : User.t) (p : UserProfile.t) :
  selected chatId = Some c -> user = Some u -> userProfile = Some p ->
  trim text <> [] ->
  Ai.isToxic (detectToxicity (toLowerCase h) text) = true ->
  sendMessage chatId user userProfile text h w =
    (Throw (Error toxicMessage),
     mkWorld (db w) (clockReads w) (pushes w)
             (log w ++ [CalledDetectToxicity text])).
Proof.
  intros Hc Hu Hp Htrim Htox. unfold sendMessage. rewrite Hc, Hu, Hp.
  assert (Htruthy : truthy (trim text) = true) by by destruct (trim text).
  rewrite Htruthy. unfold callDetectToxicity, bind, emit, ret, throw.
  cbn -[detectToxicity]. by rewrite Htox.
Qed.

Lemma selected_Some (c : string) : c <> "" -> selected (Some c) = Some c.
Proof. intros Hc. unfold selected. by rewrite decide_False. Qed.

(** X15.  [handleSend] on a draft that [detectToxicity] flags (user and
    profile loaded, no send in flight): the draft stays in the input, the
    view raises the notice "Couldn't send message" with the error's text,
    [sending] is back to [false], and nothing was written. *)
Theorem handleSend_rejected_keeps_draft (h : Host) (w : World) (chatId : string)
  (u : User.t) (p : UserProfile.t) (random : Q) (st : ChatView.State) :
  chatId <> "" ->
  ChatView.sending st = false ->
  trim (ChatView.newMessage st) <> [] ->
  Ai.isToxic (detectToxicity (toLowerCase h) (ChatView.newMessage st)) = true ->
  let r := ChatView.handleSend chatId (Some u) (Some p) random st h w in
  r.1 = Normal (ChatView.mkState (ChatView.newMessage st) false
                  (ChatView.supportMessage st)
                  (ChatView.notices st ++
                     [ChatView.mkNotice "Couldn't send message" toxicMessage])) /\
  db r.2 = db w /\ pushes r.2 = pushes w.
Proof.
  intros Hc Hsending Htrim Htox. cbn zeta. unfold ChatView.handleSend.
  assert (Htruthy : truthy (trim (ChatView.newMessage st)) = true)
    by by destruct (trim (ChatView.newMessage st)).
  rewrite Htruthy, Hsending. cbn [negb orb].
  rewrite (sendMessage_toxic_run h w (Some chatId) (Some u) (Some p) _ chatId u p
             (selected_Some chatId Hc) eq_refl eq_refl Htrim Htox).
  done.
Qed.

Lemma handleSend_rejected_keeps_draft_witness :
  let st := ChatView.mkState (lit "you are an idiot") false None [] in
  exists st',
    (ChatView.handleSend "c1" (Some Fixtures.alice) (Some Fixtures.aliceProfile)
       (1 # 2) st (Fixtures.hostAt 1000 1) Fixtures.emptyWorld).1 = Normal st' /\
    ChatView.newMessage st' = lit "you are an idiot" /\
    length (ChatView.notices st') = 1%nat.
Proof.
  cbn zeta.
  destruct (handleSend_rejected_keeps_draft (Fixtures.hostAt 1000 1)
              Fixtures.emptyWorld "c1" Fixtures.alice Fixtures.aliceProfile (1 # 2)
              (ChatView.mkState (lit "you are an idiot") false None []))
    as (Hr & _); [done | done | vm_compute; discriminate | vm_compute; reflexivity |].
  eexists. split; [exact Hr|]. by split.
Defined.



(** X17.  When [handleSend] submits a draft that is not blank while the hook
    has no user or no profile yet, [sendMessage] returns [undefined] and the
    handler goes on as after a send: the input is cleared and no notice is
    raised, although nothing was written and no classifier was called. *)
Theorem handleSend_without_profile_loses_draft (h : Host) (w : World)
  (chatId : string) (user : option User.t) (userProfile : option UserProfile.t)
  (random : Q) (st : ChatView.State) :
  user = None \/ userProfile = None ->
  ChatView.sending st = false ->
  trim (ChatView.newMessage st) <> [] ->
  ChatView.handleSend chatId user userProfile random st h w =
    (Normal (ChatView.mkState [] false (ChatView.supportMessage st)
               (ChatView.notices st)),
     w).
Proof.
  intros Hmissing Hsending Htrim. unfold ChatView.handleSend.
  assert (Htruthy : truthy (trim (ChatView.newMessage st)) = true)
    by by destruct (trim (ChatView.newMessage st)).
  rewrite Htruthy, Hsending. cbn [negb orb].
  assert (Hret : sendMessage (Some chatId) user userProfile
                   (ChatView.newMessage st) h w = (Normal None, w)).
  { unfold sendMessage. destruct Hmissing as [-> | ->].
    - by destruct (selected (Some chatId)).
    - by destruct (selected (Some chatId)), user. }
  by rewrite Hret.
Qed.

Lemma handleSend_without_profile_loses_draft_witness :
  ChatView.handleSend "c1" (Some Fixtures.alice) None (1 # 2)
    (ChatView.mkState (lit "hello") false None [])
    (Fixtures.hostAt 1000 1) Fixtures.emptyWorld
  = (Normal (ChatView.mkState [] false None []), Fixtures.emptyWorld).
Proof.
  apply (handleSend_without_profile_loses_draft (Fixtures.hostAt 1000 1)
           Fixtures.emptyWorld "c1" (Some Fixtures.alice) None (1 # 2)
           (ChatView.mkState (lit "hello") false None []));
    [by right | done | vm_compute; discriminate].
Defined.

(** X18.  Whatever its arguments, [sendMessage] writes a message record only
    for a text that [detectToxicity] did not flag: every message write it
    adds to the log is into the selected chat, under the key [push] gave,
    carries the trimmed, non-empty text and [isToxic] false, and the text as
    typed was not flagged. *)
Theorem sendMessage_never_stores_flagged (h : Host) (w : World)
  (chatId : option string) (user : option User.t)
  (userProfile : option UserProfile.t) (text : jsstring)
  (c k : string) (m : MessageData) (added : list Event) :
  log (sendMessage chatId user userProfile text h w).2 = log w ++ added ->
  Wrote (SetMessage c k m) ∈ added ->
  Ai.isToxic (detectToxicity (toLowerCase h) text) = false /\
  selected chatId = Some c /\
  k = pushKey h (pushes w) /\
  Firebase.text m = Some (trim text) /\ trim text <> [] /\
  Firebase.isToxic m = Some false /\
  Firebase.isDeleted m = None.
Proof.
  intros Hlog Hin.
  assert (Hnothing : sendMessage chatId user userProfile text h w = (Normal None, w)
                     -> False).
  { intros Hrun. rewrite Hrun in Hlog. cbn [snd] in Hlog.
    rewrite <- (app_nil_r (log w)) in Hlog at 1. apply app_inv_head in Hlog.
    subst added. by apply elem_of_nil in Hin. }
  destruct (selected chatId) as [c'|] eqn:Hc;
    [|exfalso; apply Hnothing; unfold sendMessage; by rewrite Hc].
  destruct user as [u|];
    [|exfalso; apply Hnothing; unfold sendMessage; by rewrite Hc].
  destruct userProfile as [p|];
    [|exfalso; apply Hnothing; unfold sendMessage; by rewrite Hc].
  destruct (trim text) as [|ch rest] eqn:Htrim;
    [exfalso; apply Hnothing; unfold sendMessage; by rewrite Hc, Htrim|].
  assert (Hne : trim text <> []) by by rewrite Htrim.
  rewrite <- Htrim. clear Hnothing.
  destruct (Ai.isToxic (detectToxicity (toLowerCase h) text)) eqn:Htox.
  - exfalso.
    rewrite (sendMessage_toxic_run h w chatId (Some u) (Some p) text c' u p
               Hc eq_refl eq_refl Hne Htox) in Hlog.
    cbn [snd log] in Hlog. apply app_inv_head in Hlog. subst added.
    apply list_elem_of_singleton in Hin. discriminate.
  - rewrite (sendMessage_run h w chatId (Some u) (Some p) text c' u p
               Hc eq_refl eq_refl Hne Htox) in Hlog.
    cbn [snd log] in Hlog. apply app_inv_head in Hlog. subst added.
    repeat (apply elem_of_cons in Hin as [Hin|Hin]; [try discriminate|]).
    + injection Hin as -> -> ->. by split_and!.
    + by apply elem_of_nil in Hin.
Qed.

Lemma sendMessage_never_stores_flagged_witness :
  Ai.isToxic (detectToxicity toLowerCase_ascii (lit "hello")) = false /\
  selected (Some "c1") = Some "c1".
Proof.
  destruct (sendMessage_never_stores_flagged (Fixtures.hostAt 1000 1)
              Fixtures.emptyWorld (Some "c1") (Some Fixtures.alice)
              (Some Fixtures.aliceProfile) (lit "hello") "c1" "k0"
              (mkMessageData (Some "alice") (Some (lit "Alice")) (Some (lit "hello"))
                 (Some 1000) (Some neutral) (Some false) None None)
              [ CalledDetectToxicity (lit "hello"); CalledAnalyzeEmotion (lit "hello");
                Wrote (SetMessage "c1" "k0"
                  (mkMessageData (Some "alice") (Some (lit "Alice"))
                     (Some (lit "hello")) (Some 1000) (Some neutral) (Some false)
                     None None));
                Wrote (SetLastMessage "c1" (lit "hello"));
                Wrote (SetLastMessageTime "c1" 1001);
                Wrote (SetTyping "c1" "alice" false) ])
    as (Htox & Hc & _).
  - vm_compute. reflexivity.
  - apply list_elem_of_further, list_elem_of_further, list_elem_of_here.
  - split; [exact Htox | exact Hc].
Defined.

(* ===================================================================== *)
(** * More on the wellbeing provider *)
(* ===================================================================== *)

(** X19.  The usage callback keeps the stored counter equal to the local
    one: after [n] ticks the local usage has grown by [n], the other state
    fields are as before, [n] writes were issued, all to
    [users/uid/todayUsage], and when [n] is not zero the value stored there
    is the local usage; chats and the chat index are untouched and no toast
    is raised by the ticks themselves. *)
Theorem usageTicks_persisted (n : nat) (uid : string) (h : Host) :
  forall (w : World) (st : State),
  exists w',
    usageTicks n uid st h w =
      (Normal (mkState (sessionStartTime st) (todayUsage st + Z.of_nat n)
                 (dailyLimit st) (showBreakReminder st) (lastBreakReminder st)),
       w') /\
    (n = 0%nat -> w' = w) /\
    (n <> 0%nat -> usage (db w') !! uid = Some (todayUsage st + Z.of_nat n)) /\
    chats (db w') = chats (db w) /\
    userChats (db w') = userChats (db w) /\
    (forall uid', uid' <> uid -> usage (db w') !! uid' = usage (db w) !! uid') /\
    log w' = log w ++
      map (fun i => Wrote (SetTodayUsage uid (todayUsage st + Z.of_nat i)))
          (seq 1 n).
Proof.
  induction n as [|n IH]; intros w st.
  - exists w. cbn [usageTicks ret seq map]. rewrite Z.add_0_r, app_nil_r.
    destruct st. by split_and!.
  - cbn [usageTicks]. unfold bind at 1. unfold usageTick at 1.
    unfold bind at 1. unfold set at 1. cbn [ret].
    destruct (IH (mkWorld (applyWrite (SetTodayUsage uid (todayUsage st + 1)) (db w))
                    (clockReads w) (pushes w)
                    (log w ++ [Wrote (SetTodayUsage uid (todayUsage st + 1))]))
                 (mkState (sessionStartTime st) (todayUsage st + 1) (dailyLimit st)
                    (showBreakReminder st) (lastBreakReminder st)))
      as (w' & Hrun & Hzero & Hstored & Hchats & Hindex & Hothers & Hlog).
    exists w'. rewrite Hrun.
    cbn [sessionStartTime todayUsage dailyLimit showBreakReminder
         lastBreakReminder db log applyWrite chats userChats usage] in *.
    split_and!.
    + do 3 f_equal. lia.
    + done.
    + intros _. destruct n as [|n].
      * rewrite (Hzero eq_refl). cbn [db usage applyWrite].
        rewrite lookup_insert_eq. f_equal; lia.
      * rewrite Hstored by done. f_equal; lia.
    + done.
    + done.
    + intros uid' Hne. rewrite (Hothers uid' Hne). by rewrite lookup_insert_ne.
    + rewrite Hlog, <- app_assoc. f_equal. cbn [app seq map].
      f_equal. rewrite <- (seq_shift n 1), List.map_map.
      apply List.map_ext. intros i. do 2 f_equal. lia.
Qed.

(** X20.  Reminders are at least 30 minutes apart.  With clock readings
    that do not go back during a run of the break check, a run that raises
    the reminder sets [lastBreakReminder] to a time at least 30 minutes
    after its previous value and at least 30 minutes after the session
    start; a run that does not raise it leaves the state and the log as
    they were. *)
Theorem breakCheck_spacing (h : Host) (w : World) (sessionStart : Z) (st : State) :
  now h (clockReads w) <= now h (S (clockReads w)) ->
  now h (S (clockReads w)) <= now h (S (S (clockReads w))) ->
  let r := breakCheck sessionStart st h w in
  exists st',
    r.1 = Normal st' /\
    ((st' = st /\ log r.2 = log w) \/
     (log r.2 = log w ++ [Toasted BreakToast] /\
      showBreakReminder st' = true /\
      lastBreakReminder st + 30 * 60000 <= lastBreakReminder st' /\
      sessionStart + 30 * 60000 <= lastBreakReminder st')).
Proof.
  intros H12 H23. cbn zeta. rewrite breakCheck_run.
  destruct (Z.leb_spec 1800000 (now h (clockReads w) - sessionStart));
    destruct (Z.leb_spec 1800000 (now h (S (clockReads w)) - lastBreakReminder st));
    cbn [andb fst snd log]; eexists; (split; [reflexivity|]).
  - right. cbn [showBreakReminder lastBreakReminder]. split_and!; try done; lia.
  - by left.
  - by left.
  - by left.
Qed.

Lemma breakCheck_spacing_witness :
  exists st',
    (breakCheck 1000000 (mkState (Some 1000000) 0 120 false 0)
       (Fixtures.hostAt 2800000 1) Fixtures.emptyWorld).1 = Normal st' /\
    1800000 <= lastBreakReminder st'.
Proof.
  destruct (breakCheck_spacing (Fixtures.hostAt 2800000 1) Fixtures.emptyWorld
              1000000 (mkState (Some 1000000) 0 120 false 0))
    as (st' & Hr & Hcases); [vm_compute; discriminate | vm_compute; discriminate |].
  exists st'. split; [exact Hr|].
  destruct Hcases as [[-> Hlog] | (_ & _ & Hlast & _)].
  - vm_compute in Hlog. discriminate.
  - cbn [lastBreakReminder] in Hlast. lia.
Defined.

(** X21.  Dismissing the reminder does not move the schedule: the next run
    of the break check raises the reminder, or not, as it would have without
    the dismissal, leaves the same world and the same [lastBreakReminder];
    and after a dismissal the dialog stays closed until a run raises the
    reminder again. *)
Theorem dismissBreakReminder_keeps_schedule (h : Host) (w : World)
  (sessionStart : Z) (st : State) :
  let plain := breakCheck sessionStart st h w in
  let dismissed := breakCheck sessionStart (dismissBreakReminder st) h w in
  dismissed.2 = plain.2 /\
  exists st1 st2,
    plain.1 = Normal st1 /\ dismissed.1 = Normal st2 /\
    lastBreakReminder st2 = lastBreakReminder st1 /\
    todayUsage st2 = todayUsage st1 /\
    (showBreakReminder st2 = true <-> log dismissed.2 = log w ++ [Toasted BreakToast]).
Proof.
  cbn zeta. rewrite !breakCheck_run.
  cbn [dismissBreakReminder lastBreakReminder sessionStartTime todayUsage
       dailyLimit].
  destruct (_ && _); cbn [fst snd log]; (split; [done|]); eexists _, _;
    (split; [reflexivity|]); (split; [reflexivity|]);
    cbn [lastBreakReminder todayUsage showBreakReminder];
    split_and!; try done.
  split; [done|]. intros Hlog. apply (f_equal length) in Hlog.
  rewrite length_app in Hlog. cbn in Hlog. lia.
Qed.

(* ===================================================================== *)
(** * The breathing exercise *)
(* ===================================================================== *)

Lemma ticks_tick (n : nat) (st : Breathing.State) :
  Breathing.ticks (S n) st = Breathing.tick (Breathing.ticks n st).
Proof.
  revert st. induction n as [|n IH]; intros st; [done|].
  change (Breathing.ticks (S (S n)) st)
    with (Breathing.ticks (S n) (Breathing.tick st)).
  by rewrite IH.
Qed.

(** X22.  The breathing exercise counts 4 seconds in, 7 held and 8 out,
    three times over: every tick keeps the cycle within 1..3 and the count
    within the bounds of its phase, from any state that has them; from the
    initial state the phases change after 4, 11 and 19 ticks, [onClose] is
    not called during the first 56 ticks and is called on the 57th. *)
Theorem breathing_three_cycles :
  let inBounds st :=
    1 <= Breathing.cycle st <= 3 /\
    match Breathing.phase st with
    | Breathing.inhale => 1 <= Breathing.count st <= 4
    | Breathing.hold => 1 <= Breathing.count st <= 7
    | Breathing.exhale => 0 <= Breathing.count st <= 8
    end in
  (forall st, inBounds st -> inBounds (Breathing.tick st)) /\
  (forall n, inBounds (Breathing.ticks n Breathing.initial)) /\
  Breathing.ticks 4 Breathing.initial = Breathing.mkState Breathing.hold 7 1 0 /\
  Breathing.ticks 11 Breathing.initial = Breathing.mkState Breathing.exhale 8 1 0 /\
  Breathing.ticks 19 Breathing.initial = Breathing.mkState Breathing.inhale 4 2 0 /\
  (forall n, (n < 57)%nat ->
     Breathing.closed (Breathing.ticks n Breathing.initial) = 0%nat) /\
  Breathing.ticks 57 Breathing.initial = Breathing.mkState Breathing.exhale 0 3 1.
Proof.
  cbn zeta.
  assert (Hstep : forall st,
             (1 <= Breathing.cycle st <= 3 /\
              match Breathing.phase st with
              | Breathing.inhale => 1 <= Breathing.count st <= 4
              | Breathing.hold => 1 <= Breathing.count st <= 7
              | Breathing.exhale => 0 <= Breathing.count st <= 8
              end) ->
             (1 <= Breathing.cycle (Breathing.tick st) <= 3 /\
              match Breathing.phase (Breathing.tick st) with
              | Breathing.inhale => 1 <= Breathing.count (Breathing.tick st) <= 4
              | Breathing.hold => 1 <= Breathing.count (Breathing.tick st) <= 7
              | Breathing.exhale => 0 <= Breathing.count (Breathing.tick st) <= 8
              end)).
  { intros [ph cnt cyc cl]. unfold Breathing.tick, Breathing.totalCycles.
    cbn [Breathing.phase Breathing.count Breathing.cycle Breathing.closed].
    intros [Hcyc Hcnt].
    destruct (Z.leb_spec cnt 1); [|destruct ph; cbn; lia].
    destruct ph; cbn; try lia.
    destruct (Z.leb_spec 3 cyc); cbn; lia. }
  split_and!.
  - exact Hstep.
  - induction n as [|n IH].
    + cbn. lia.
    + rewrite ticks_tick. by apply Hstep.
  - reflexivity.
  - reflexivity.
  - reflexivity.
  - intros n Hn.
    assert (Hall : forallb (fun n =>
                      Nat.eqb (Breathing.closed (Breathing.ticks n Breathing.initial)) 0)
                     (seq 0 57) = true) by (vm_compute; reflexivity).
    rewrite forallb_forall in Hall.
    apply Nat.eqb_eq, Hall, in_seq. lia.
  - vm_compute. reflexivity.
Qed.
